(** * JTAG-to-SPI proxy bridges: cycle-accurate model and properties

    Two bridges live in this repository:
    - [Lattice]: [JTAGtoSPI] of [lattice_bscan_spi.py] (nMigen), a header
      counting FSM in one clock domain [sync] clocked by TCK and reset by
      [jtag_sel1_capture], plus the JTAGF/JTAGG chain-selection detector;
    - [Xilinx]: [JTAG2SPI] of [xilinx_bscan_spi.py] (Migen), two registers
      in the domains [rise] and [fall].

    Registers are modelled as record fields, one [step] per active clock
    edge; combinational assignments are functions of the registers and of
    the wires sampled in that cycle. *)

From Stdlib Require Import ZArith Bool List Lia.
From Stdlib Require String Ascii DecimalString.
Import ListNotations.
Local Open Scope Z_scope.

(** ** Lattice bridge: [JTAGtoSPI] *)
Module Lattice.

(** Width nMigen gives to [Signal(range(n+1))], i.e. the number of bits
    needed for the value [n] (library function [bits_for]; one bit for 0). *)
Definition bits_for (n : Z) : Z :=
  if n =? 0 then 1 else Z.log2 n + 1.

(** [len(head)] for [head = Signal(range(len(bits)), reset=len(bits)-1)]. *)
Definition head_width (W : Z) : Z := bits_for (W - 1).

(** States of [with m.FSM() as fsm]; the first one declared is the reset state. *)
Inductive fsm_state : Set := IDLE | HEAD | XFER.

Definition fsm_state_eqb (a b : fsm_state) : bool :=
  match a, b with
  | IDLE, IDLE | HEAD, HEAD | XFER, XFER => true
  | _, _ => false
  end.

(** Registers of the [sync] domain driven by [elaborate]. *)
Record regs : Set := mkRegs {
  fsm  : fsm_state;   (* FSM state register *)
  head : Z;           (* header down counter, [head_width W] bits, reset W-1 *)
  bits : Z            (* W-bit accumulator / transfer counter, reset_less *)
}.

(** Wires read by the bridge logic in one cycle. *)
Record wires : Set := mkWires {
  sel  : bool;               (* jtag.sel *)
  tck  : bool;               (* jtag.tck *)
  tdi  : bool;               (* jtag.tdi *)
  miso_i : bool;             (* miso.i *)
  jtag_sel1_capture : bool;  (* chain 1 selected and Capture-DR *)
  jtag_sel1_shift   : bool   (* chain 1 selected and Shift-DR *)
}.

(** Simulation configuration ([spi_pins is None]): the JTAG record is driven
    by the test bench. *)
Record sim_in : Set := mkSim {
  s_sel : bool; s_shift : bool; s_capture : bool;
  s_tck : bool; s_tdi : bool; s_miso : bool
}.

Definition sim_wires (j : sim_in) : wires :=
  {| sel := s_sel j; tck := s_tck j; tdi := s_tdi j; miso_i := s_miso j;
     jtag_sel1_capture := s_sel j && s_capture j;
     jtag_sel1_shift   := s_sel j && s_shift j |}.

(** Outputs of the JTAGF/JTAGG primitive. *)
Record jtagg_out : Set := mkJtagg {
  JTDI : bool; JTCK : bool; JRTI1 : bool; JRSTN : bool;
  JSHIFT : bool; JCE1 : bool
}.

(** Hardware configuration: [jtag.sel] is the detector's register. *)
Definition hw_wires (sel_reg : bool) (p : jtagg_out) (miso : bool) : wires :=
  {| sel := sel_reg; tck := JTCK p; tdi := JTDI p; miso_i := miso;
     jtag_sel1_capture := JCE1 p && negb (JSHIFT p);
     jtag_sel1_shift   := JCE1 p && JSHIFT p |}.

(** [cd_sync.rst.eq(self.jtag_sel1_capture)] *)
Definition rst (i : wires) : bool := jtag_sel1_capture i.

(** [Cat(self.jtag.tdi, bits)]: tdi in bit 0, bits above it. *)
Definition Cat (b : bool) (x : Z) : Z := Z.lor (Z.b2z b) (Z.shiftl x 1).

(** Assignment to a [w]-bit signal keeps the low [w] bits. *)
Definition trunc (w x : Z) : Z := x mod 2 ^ w.

Definition reset_regs (W b : Z) : regs :=
  {| fsm := IDLE; head := W - 1; bits := b |}.

(** One rising TCK edge of the [sync] domain.  The FSM body gives the next
    values; the domain reset then overrides every register that is not
    [reset_less] (so [bits] still follows the FSM body under reset). *)
Definition step (W : Z) (s : regs) (i : wires) : regs :=
  let fsm' :=
    match fsm s with
    | IDLE => if jtag_sel1_shift i && tdi i then HEAD else IDLE
    | HEAD => if head s =? 0 then XFER else HEAD
    | XFER => if bits s =? 0 then IDLE else XFER
    end in
  let head' :=
    match fsm s with
    | HEAD => trunc (head_width W) (head s - 1)
    | _ => head s
    end in
  let bits' :=
    match fsm s with
    | IDLE => bits s
    | HEAD => trunc W (Cat (tdi i) (bits s))
    | XFER => trunc W (bits s - 1)
    end in
  if rst i
  then {| fsm := IDLE; head := W - 1; bits := bits' |}
  else {| fsm := fsm'; head := head'; bits := bits' |}.

(** Pin values driven combinationally.  [miso] is [Pin(1, "i")]: it has no
    output or output-enable field at all. *)
Record pins : Set := mkPins {
  cs_n_o : bool; cs_n_oe : bool;
  clk_o  : bool; clk_oe  : bool;
  mosi_o : bool; mosi_oe : bool;
  tdo    : bool
}.

Definition ongoing (s : regs) (st : fsm_state) : bool := fsm_state_eqb (fsm s) st.

Definition outputs (s : regs) (i : wires) : pins :=
  {| cs_n_o := negb (ongoing s XFER); cs_n_oe := sel i;
     clk_o := negb (tck i); clk_oe := sel i;
     mosi_o := tdi i; mosi_oe := sel i;
     tdo := miso_i i |}.

(** Feeding a list of cycles. *)
Definition run (W : Z) (s : regs) (l : list wires) : regs :=
  fold_left (step W) l s.

(** Registers hold values of their width. *)
Definition wf (W : Z) (s : regs) : Prop :=
  0 <= head s < 2 ^ head_width W /\ 0 <= bits s < 2 ^ W.

(** Value of a bit string, first bit most significant, continuing from [acc]. *)
Definition shift_in (acc : Z) (l : list bool) : Z :=
  fold_left (fun a b => 2 * a + Z.b2z b) l acc.

Definition bits_value (l : list bool) : Z := shift_in 0 l.

(** A Shift-DR cycle of the selected chain carrying [t] on TDI. *)
Definition shift_bit (t : bool) : wires :=
  {| sel := true; tck := true; tdi := t; miso_i := false;
     jtag_sel1_capture := false; jtag_sel1_shift := true |}.

Definition no_rst (l : list wires) : Prop := Forall (fun i => rst i = false) l.

(** *** Chain-selection detector of [_detect_jtag_state] (JTAGF/JTAGG) *)
Module Detector.

Inductive det_state : Set := D_IDLE | D_TLRST.

Record det_regs : Set := mkDet {
  dfsm : det_state;
  sel_reg : bool      (* self.jtag.sel, reset 0 *)
}.

Definition det_reset : det_regs := {| dfsm := D_IDLE; sel_reg := false |}.

(** One rising TCK edge; the FSM lives in the same [sync] domain as the
    bridge, hence shares its reset [r]. *)
Definition det_step (s : det_regs) (r : bool) (p : jtagg_out) : det_regs :=
  if r then det_reset
  else match dfsm s with
       | D_IDLE =>
           if negb (JRSTN p)
           then {| dfsm := D_TLRST; sel_reg := false |}
           else s
       | D_TLRST =>
           if negb (sel_reg s)
           then {| dfsm := D_TLRST; sel_reg := JRTI1 p |}
           else {| dfsm := D_IDLE; sel_reg := sel_reg s |}
       end.

(** Cycles during which the shared domain reset is not asserted. *)
Definition det_run (s : det_regs) (l : list jtagg_out) : det_regs :=
  fold_left (fun s p => det_step s false p) l s.

End Detector.

(** Whole hardware-mode design: detector and bridge on the same clock. *)
Record hw_regs : Set := mkHw {
  det  : Detector.det_regs;
  core : regs
}.

Definition hw_step (W : Z) (s : hw_regs) (p : jtagg_out) (miso : bool) : hw_regs :=
  let i := hw_wires (Detector.sel_reg (det s)) p miso in
  {| det := Detector.det_step (det s) (rst i) p;
     core := step W (core s) i |}.

End Lattice.

(** ** Xilinx bridge: [JTAG2SPI] *)
Module Xilinx.

Record jtag_in : Set := mkJtag {
  sel : bool; shift : bool; clk : bool; tdi : bool; miso_i : bool
}.

(** Registers: [jtag.tdo] in [cd_rise] (reset_less), [cs_n.o] in [cd_fall]
    (reset value 1).  There is no counter. *)
Record regs : Set := mkRegs {
  cs_n_o : bool;
  tdo : bool
}.

Definition reset_regs : regs := {| cs_n_o := true; tdo := false |}.

(** [en.eq(self.jtag.sel & self.jtag.shift)] *)
Definition en (i : jtag_in) : bool := sel i && shift i.

(** [self.sync.rise += self.jtag.tdo.eq(self.miso.i)] *)
Definition rise (s : regs) (i : jtag_in) : regs :=
  {| cs_n_o := cs_n_o s; tdo := miso_i i |}.

(** [self.sync.fall += If(self.jtag.tdi, self.cs_n.o.eq(0))] with the
    domain reset [~en]. *)
Definition fall (s : regs) (i : jtag_in) : regs :=
  {| cs_n_o := if negb (en i) then true
               else if tdi i then false else cs_n_o s;
     tdo := tdo s |}.

Inductive edge : Set := Rise | Fall.

Definition step (s : regs) (e : edge * jtag_in) : regs :=
  match fst e with
  | Rise => rise s (snd e)
  | Fall => fall s (snd e)
  end.

Definition run (s : regs) (l : list (edge * jtag_in)) : regs :=
  fold_left step l s.

(** One full TCK period: rising edge then falling edge. *)
Definition tick (s : regs) (i : jtag_in) : regs := fall (rise s i) i.

Record pins : Set := mkPins {
  p_cs_n_o : bool; p_cs_n_oe : bool;
  p_clk_o  : bool; p_clk_oe  : bool;
  p_mosi_o : bool; p_mosi_oe : bool;
  p_miso_oe : bool;
  p_tdo : bool
}.

Definition outputs (s : regs) (i : jtag_in) : pins :=
  {| p_cs_n_o := cs_n_o s; p_cs_n_oe := en i;
     p_clk_o := clk i; p_clk_oe := en i;
     p_mosi_o := tdi i; p_mosi_oe := en i;
     p_miso_oe := false;
     p_tdo := tdo s |}.

(** Every falling edge in [l] sees [en] asserted. *)
Definition en_held (l : list (edge * jtag_in)) : Prop :=
  Forall (fun e => fst e = Fall -> en (snd e) = true) l.

End Xilinx.

(** ** Lattice bridge: constructor options and whole-design runs *)
Module LatticeTop.
Import Lattice.
Import String.

(** The state in which a header can start: IDLE with the header counter at
    its reset value. *)
Definition ready (W : Z) (s : regs) : Prop := fsm s = IDLE /\ head s = W - 1.

(** The IDLE test [self.jtag_sel1_shift & self.jtag.tdi]. *)
Definition marker (i : wires) : bool := jtag_sel1_shift i && tdi i.

(** Runs of the hardware configuration: one primitive output vector and one
    MISO level per cycle. *)
Definition hw_run (W : Z) (s : hw_regs) (l : list (jtagg_out * bool)) : hw_regs :=
  fold_left (fun s pm => hw_step W s (fst pm) (snd pm)) l s.

Definition hw_outputs (s : hw_regs) (p : jtagg_out) (miso : bool) : pins :=
  outputs (core s) (hw_wires (Detector.sel_reg (det s)) p miso).

(** Runs of the simulation configuration. *)
Definition sim_run (W : Z) (s : regs) (l : list sim_in) : regs :=
  run W s (map sim_wires l).

(** Keyword arguments of [JTAGtoSPI.__init__] left in [**kwargs], each value
    taken by its truthiness. *)
Definition kwargs : Set := list (String.string * bool).

Fixpoint kw_get (k : String.string) (kw : kwargs) : option bool :=
  match kw with
  | [] => None
  | (k', v) :: kw' => if String.eqb k k' then Some v else kw_get k kw'
  end.

Definition kw_has (k : String.string) (kw : kwargs) : bool :=
  match kw_get k kw with Some _ => true | None => false end.

(** [kwargs.get(k)] used as a condition: a missing key gives [None]. *)
Definition kw_true (k : String.string) (kw : kwargs) : bool :=
  match kw_get k kw with Some v => v | None => false end.

Inductive primitive : Set := JTAGF | JTAGG.

Inductive init_result : Set :=
| Init_ok (attr : option primitive)   (* which of _jtagf / _jtagg is set *)
| Init_KeyError.

(** The [# For JTAGF/JTAGG] block of [__init__]. *)
Definition init (kw : kwargs) : init_result :=
  if kw_has "jtagf"%string kw || kw_has "jtagg"%string kw then
    if kw_true "jtagf"%string kw then Init_ok (Some JTAGF)
    else if kw_true "jtagg"%string kw then Init_ok (Some JTAGG)
    else Init_KeyError
  else Init_ok None.

(** [jtag_name] chosen by [_detect_jtag_state]; [None] when neither
    attribute exists and no primitive is instantiated. *)
Definition jtag_name (attr : option primitive) : option String.string :=
  match attr with
  | Some JTAGF => Some "JTAGF"%string
  | Some JTAGG => Some "JTAGG"%string
  | None => None
  end.

End LatticeTop.

(** ** Xilinx bridge: traces and the Ultrascale STARTUPE3 wiring *)
Module XilinxTop.
Import Xilinx.

(** Some falling edge of the trace carried [tdi = 1]. *)
Definition marker_seen (l : list (edge * jtag_in)) : bool :=
  existsb (fun e => match fst e with Fall => tdi (snd e) | Rise => false end) l.

Definition only_falls (l : list (edge * jtag_in)) : Prop :=
  Forall (fun e => fst e = Fall) l.

(** [mg.Cat(b0, b1, ...)] of one-bit operands: first operand in bit 0. *)
Definition Cat (l : list bool) : Z :=
  fold_right (fun b acc => Z.b2z b + 2 * acc) 0 l.

(** Inputs of the STARTUPE3 instance driven from [j2s0] in [Ultrascale]. *)
Record startupe3 : Set := mkStartup {
  USRCCLKO : bool; USRCCLKTS : bool;
  FCSBO : bool; FCSBTS : bool;
  DO : Z; DTS : Z
}.

Definition ultrascale_startup (s : regs) (i : jtag_in) : startupe3 :=
  let o := outputs s i in
  {| USRCCLKO := p_clk_o o; USRCCLKTS := negb (p_clk_oe o);
     FCSBO := p_cs_n_o o; FCSBTS := negb (p_cs_n_oe o);
     DO := Cat [p_mosi_o o; false; false; false];
     DTS := Cat [negb (p_mosi_oe o); negb (p_miso_oe o); true; true] |}.

(** [o_DI=mg.Cat(0, j2s0.miso.i, 0, 0)]: MISO is bit 1 of DI. *)
Definition ultrascale_miso (DI : Z) : bool := Z.testbit DI 1.

End XilinxTop.

(** ** Xilinx platform: pin tables, [make_spi] and [make] *)
Module XilinxPlatform.
Import String.
Local Open Scope string_scope.

Inductive top : Set := Spartan3 | Spartan3A | Spartan6 | Series7 | Ultrascale.

(** Class attribute [toolchain] of each top-level module. *)
Definition toolchain (t : top) : string :=
  match t with
  | Spartan3 | Spartan3A | Spartan6 => "ise"
  | Series7 | Ultrascale => "vivado"
  end.

(** Second component of a [packages] key: a number or a board name. *)
Inductive pkg_id : Set := IdNum (n : nat) | IdName (s : string).

Definition pkg_id_eqb (a b : pkg_id) : bool :=
  match a, b with
  | IdNum n, IdNum m => Nat.eqb n m
  | IdName s, IdName t => String.eqb s t
  | _, _ => false
  end.

Definition key_eqb (a b : string * pkg_id) : bool :=
  String.eqb (fst a) (fst b) && pkg_id_eqb (snd a) (snd b).

(** Dictionary lookup; [None] stands for [KeyError]. *)
Fixpoint lookup {K V : Type} (eqb : K -> K -> bool) (k : K)
    (d : list (K * V)) : option V :=
  match d with
  | [] => None
  | (k', v) :: d' => if eqb k k' then Some v else lookup eqb k d'
  end.

(** Class attribute [packages]: (package, id) to
    [cs_n, clk, mosi, miso, *pullups]. *)
Definition packages : list ((string * pkg_id) * list (option string)) :=
  [
   (("cp132", IdNum 1), [Some "M2"; Some "N12"; Some "N2"; Some "N8"]);
   (("fg320", IdNum 1), [Some "U3"; Some "U16"; Some "T4"; Some "N10"]);
   (("fg320", IdNum 2), [Some "V3"; Some "U16"; Some "T11"; Some "V16"]);
   (("fg484", IdNum 1), [Some "Y4"; Some "AA20"; Some "AB14"; Some "AB20"]);
   (("fgg484", IdNum 1), [Some "Y4"; Some "AA20"; Some "AB14"; Some "AB20"]);
   (("fgg400", IdNum 1), [Some "Y2"; Some "Y19"; Some "W12"; Some "W18"]);
   (("ftg256", IdNum 1), [Some "T2"; Some "R14"; Some "P10"; Some "T14"]);
   (("ft256", IdNum 1), [Some "T2"; Some "R14"; Some "P10"; Some "T14"]);
   (("fg400", IdNum 1), [Some "Y2"; Some "Y19"; Some "W12"; Some "W18"]);
   (("cs484", IdNum 1), [Some "U7"; Some "V17"; Some "V13"; Some "W17"]);
   (("qg144-2", IdNum 1), [Some "P38"; Some "P70"; Some "P64"; Some "P65"; Some "P62"; Some "P61"]);
   (("cpg196-2", IdNum 1), [Some "P2"; Some "N13"; Some "P11"; Some "N11"; Some "N10"; Some "P10"]);
   (("cpg236-1", IdNum 1), [Some "K19"; None; Some "D18"; Some "D19"; Some "G18"; Some "F18"]);
   (("csg484-2", IdNum 1), [Some "AB5"; Some "W17"; Some "AB17"; Some "Y17"; Some "V13"; Some "W13"]);
   (("csg324-2", IdNum 1), [Some "V3"; Some "R15"; Some "T13"; Some "R13"; Some "T14"; Some "V14"]);
   (("csg324-1", IdNum 1), [Some "L13"; None; Some "K17"; Some "K18"; Some "L14"; Some "M14"]);
   (("fbg484-1", IdNum 1), [Some "T19"; None; Some "P22"; Some "R22"; Some "P21"; Some "R21"]);
   (("fbg484-1", IdNum 2), [Some "L16"; None; Some "H18"; Some "H19"; Some "G18"; Some "F19"]);
   (("fbg676-1", IdNum 1), [Some "C23"; None; Some "B24"; Some "A25"; Some "B22"; Some "A22"]);
   (("ffg901-1", IdNum 1), [Some "V26"; None; Some "R30"; Some "T30"; Some "R28"; Some "T28"]);
   (("ffg1156-1", IdNum 1), [Some "V30"; None; Some "AA33"; Some "AA34"; Some "Y33"; Some "Y34"]);
   (("ffg1157-1", IdNum 1), [Some "AL33"; None; Some "AN33"; Some "AN34"; Some "AK34"; Some "AL34"]);
   (("ffg1158-1", IdNum 1), [Some "C24"; None; Some "A23"; Some "A24"; Some "B26"; Some "A26"]);
   (("ffg1926-1", IdNum 1), [Some "AK33"; None; Some "AN34"; Some "AN35"; Some "AJ34"; Some "AK34"]);
   (("fhg1761-1", IdNum 1), [Some "AL36"; None; Some "AM36"; Some "AN36"; Some "AJ36"; Some "AJ37"]);
   (("flg1155-1", IdNum 1), [Some "AL28"; None; Some "AE28"; Some "AF28"; Some "AJ29"; Some "AJ30"]);
   (("flg1932-1", IdNum 1), [Some "V32"; None; Some "T33"; Some "R33"; Some "U31"; Some "T31"]);
   (("flg1926-1", IdNum 1), [Some "AK33"; None; Some "AN34"; Some "AN35"; Some "AJ34"; Some "AK34"]);
   (("ffva1156-2-e", IdNum 1), [Some "G26"; None; Some "M20"; Some "L20"; Some "R21"; Some "R22"]);
   (("ffva1156-2-e", IdName "sayma"), [Some "K21"; None; Some "M20"; Some "L20"; Some "R21"; Some "R22"])].

(** Class attribute [pinouts]: chip to (package, id, standard, class). *)
Definition pinouts : list (string * (string * pkg_id * string * top)) :=
  [
   ("xc3s100e", ("cp132", IdNum 1, "LVCMOS33", Spartan3));
   ("xc3s1200e", ("fg320", IdNum 1, "LVCMOS33", Spartan3));
   ("xc3s1400a", ("fg484", IdNum 1, "LVCMOS33", Spartan3A));
   ("xc3s1400an", ("fgg484", IdNum 1, "LVCMOS33", Spartan3A));
   ("xc3s1600e", ("fg320", IdNum 1, "LVCMOS33", Spartan3));
   ("xc3s200a", ("fg320", IdNum 2, "LVCMOS33", Spartan3A));
   ("xc3s200an", ("ftg256", IdNum 1, "LVCMOS33", Spartan3A));
   ("xc3s250e", ("cp132", IdNum 1, "LVCMOS33", Spartan3));
   ("xc3s400a", ("fg320", IdNum 2, "LVCMOS33", Spartan3A));
   ("xc3s400an", ("fgg400", IdNum 1, "LVCMOS33", Spartan3A));
   ("xc3s500e", ("cp132", IdNum 1, "LVCMOS33", Spartan3));
   ("xc3s50a", ("ft256", IdNum 1, "LVCMOS33", Spartan3A));
   ("xc3s50an", ("ftg256", IdNum 1, "LVCMOS33", Spartan3A));
   ("xc3s700a", ("fg400", IdNum 1, "LVCMOS33", Spartan3A));
   ("xc3s700an", ("fgg484", IdNum 1, "LVCMOS33", Spartan3A));
   ("xc3sd1800a", ("cs484", IdNum 1, "LVCMOS33", Spartan3A));
   ("xc3sd3400a", ("cs484", IdNum 1, "LVCMOS33", Spartan3A));
   ("xc6slx100", ("csg484-2", IdNum 1, "LVCMOS33", Spartan6));
   ("xc6slx100t", ("csg484-2", IdNum 1, "LVCMOS33", Spartan6));
   ("xc6slx150", ("csg484-2", IdNum 1, "LVCMOS33", Spartan6));
   ("xc6slx150t", ("csg484-2", IdNum 1, "LVCMOS33", Spartan6));
   ("xc6slx16", ("cpg196-2", IdNum 1, "LVCMOS33", Spartan6));
   ("xc6slx25", ("csg324-2", IdNum 1, "LVCMOS33", Spartan6));
   ("xc6slx25t", ("csg324-2", IdNum 1, "LVCMOS33", Spartan6));
   ("xc6slx45", ("csg324-2", IdNum 1, "LVCMOS33", Spartan6));
   ("xc6slx45t", ("csg324-2", IdNum 1, "LVCMOS33", Spartan6));
   ("xc6slx4", ("cpg196-2", IdNum 1, "LVCMOS33", Spartan6));
   ("xc6slx4t", ("qg144-2", IdNum 1, "LVCMOS33", Spartan6));
   ("xc6slx75", ("csg484-2", IdNum 1, "LVCMOS33", Spartan6));
   ("xc6slx75t", ("csg484-2", IdNum 1, "LVCMOS33", Spartan6));
   ("xc6slx9", ("cpg196-2", IdNum 1, "LVCMOS33", Spartan6));
   ("xc6slx9t", ("qg144-2", IdNum 1, "LVCMOS33", Spartan6));
   ("xc7a100t", ("csg324-1", IdNum 1, "LVCMOS25", Series7));
   ("xc7a15t", ("cpg236-1", IdNum 1, "LVCMOS25", Series7));
   ("xc7a200t", ("fbg484-1", IdNum 1, "LVCMOS25", Series7));
   ("xc7a35t", ("cpg236-1", IdNum 1, "LVCMOS25", Series7));
   ("xc7a50t", ("cpg236-1", IdNum 1, "LVCMOS25", Series7));
   ("xc7a75t", ("csg324-1", IdNum 1, "LVCMOS25", Series7));
   ("xc7k160t", ("fbg484-1", IdNum 2, "LVCMOS25", Series7));
   ("xc7k325t", ("fbg676-1", IdNum 1, "LVCMOS25", Series7));
   ("xc7k355t", ("ffg901-1", IdNum 1, "LVCMOS25", Series7));
   ("xc7k410t", ("fbg676-1", IdNum 1, "LVCMOS25", Series7));
   ("xc7k420t", ("ffg1156-1", IdNum 1, "LVCMOS25", Series7));
   ("xc7k480t", ("ffg1156-1", IdNum 1, "LVCMOS25", Series7));
   ("xc7k70t", ("fbg484-1", IdNum 2, "LVCMOS25", Series7));
   ("xc7v2000t", ("fhg1761-1", IdNum 1, "LVCMOS18", Series7));
   ("xc7v585t", ("ffg1157-1", IdNum 1, "LVCMOS18", Series7));
   ("xc7vh580t", ("flg1155-1", IdNum 1, "LVCMOS18", Series7));
   ("xc7vh870t", ("flg1932-1", IdNum 1, "LVCMOS18", Series7));
   ("xc7vx1140t", ("flg1926-1", IdNum 1, "LVCMOS18", Series7));
   ("xc7vx330t", ("ffg1157-1", IdNum 1, "LVCMOS18", Series7));
   ("xc7vx415t", ("ffg1157-1", IdNum 1, "LVCMOS18", Series7));
   ("xc7vx485t", ("ffg1157-1", IdNum 1, "LVCMOS18", Series7));
   ("xc7vx550t", ("ffg1158-1", IdNum 1, "LVCMOS18", Series7));
   ("xc7vx690t", ("ffg1157-1", IdNum 1, "LVCMOS18", Series7));
   ("xc7vx980t", ("ffg1926-1", IdNum 1, "LVCMOS18", Series7));
   ("xcku040", ("ffva1156-2-e", IdNum 1, "LVCMOS18", Ultrascale))].

Inductive constraint : Set :=
| Pins (p : option string)
| Misc (m : string).

(** Elements of the resource list built by [make_spi]. *)
Inductive io_elem : Set :=
| Str (s : string)
| Num (n : nat)
| Subsignal (name : string) (cs : list constraint)
| IOStandard (s : string).

(** Truth value of a pin entry in [if clk:]. *)
Definition pin_true (p : option string) : bool :=
  match p with
  | Some s => negb (String.eqb s "")
  | None => false
  end.

(** ["{}".format(i)] for a non-negative integer. *)
Definition format_nat (n : nat) : string :=
  DecimalString.NilEmpty.string_of_uint (Nat.to_uint n).

(** The loop [for i, p in enumerate(pins[4:])], counting from [i]. *)
Fixpoint pullups (pu : string) (i : nat) (ps : list (option string))
    : list io_elem :=
  match ps with
  | [] => []
  | p :: ps' =>
      Subsignal ("pullup" ++ format_nat i) [Pins p; Misc pu]
      :: pullups pu (S i) ps'
  end.

(** [make_spi]; [None] is the [ValueError] of unpacking fewer than four
    pins. *)
Definition make_spi (i : nat) (pins : list (option string))
    (std tc : string) : option (list io_elem) :=
  let pu := if String.eqb tc "ise" then "PULLUP" else "PULLUP TRUE" in
  match firstn 4 pins with
  | [cs_n; clk; mosi; miso] =>
      let io := [Str "spiflash"; Num i;
                 Subsignal "cs_n" [Pins cs_n];
                 Subsignal "mosi" [Pins mosi];
                 Subsignal "miso" [Pins miso; Misc pu];
                 IOStandard std] in
      let io := if pin_true clk
                then (io ++ [Subsignal "clk" [Pins clk]])%list
                else io in
      Some (io ++ pullups pu 0 (skipn 4 pins))%list
  | _ => None
  end.

Definition has_subsignal (name : string) (io : list io_elem) : bool :=
  existsb (fun e => match e with
                    | Subsignal n _ => String.eqb n name
                    | _ => false
                    end) io.

Inductive exn : Set :=
| KeyError
| ValueError
| BuildError (msg : string).

Record platform : Set := mkPlatform {
  p_device : string;
  p_ios : list (list io_elem);
  p_toolchain : string
}.

(** Arguments of [platform.build(top, build_name=name, build_dir=dir)]. *)
Record build_call : Set := mkBuild {
  b_platform : platform;
  b_top : top;
  b_name : string;
  b_dir : string
}.

(** What a call of [make] leaves behind: the lines printed and the
    exception that escapes, if any. *)
Record outcome : Set := mkOutcome {
  printed : list string;
  raised : option exn
}.

(** [XilinxBscanSpi.make].  [build] stands for the toolchain run and gives
    the message of the exception it raises, if it raises one. *)
Definition make (build : build_call -> option string)
    (device : string) (errors : bool) : outcome :=
  match lookup String.eqb device pinouts with
  | None => {| printed := []; raised := Some KeyError |}
  | Some (pkg, id, std, Top) =>
      match lookup key_eqb (pkg, id) packages with
      | None => {| printed := []; raised := Some KeyError |}
      | Some pins =>
          match make_spi 0 pins std (toolchain Top) with
          | None => {| printed := []; raised := Some ValueError |}
          | Some io =>
              let pf := {| p_device := device ++ "-" ++ pkg;
                           p_ios := [io];
                           p_toolchain := toolchain Top |} in
              match build {| b_platform := pf; b_top := Top;
                             b_name := "bscan_spi_" ++ device;
                             b_dir := "build_" ++ device |} with
              | None => {| printed := []; raised := None |}
              | Some e =>
                  {| printed :=
                       ["ERROR: xilinx_bscan_spi build failed for "
                          ++ device ++ ": " ++ e];
                     raised := if errors then Some (BuildError e)
                               else None |}
              end
          end
      end
  end.

(** No key occurs twice, so a first-match lookup reads the list as the
    dictionary literal it transcribes. *)
Fixpoint distinct {K : Type} (eqb : K -> K -> bool) (l : list K) : bool :=
  match l with
  | [] => true
  | k :: l' => negb (existsb (eqb k) l') && distinct eqb l'
  end.

(** Table check used for every device of [pinouts]: the package entry
    exists, [make_spi] accepts it, and the resource has a [clk] subsignal
    exactly for the ISE (Spartan) families. *)
Definition device_ok (e : string * (string * pkg_id * string * top)) : bool :=
  let '(_, (pkg, id, std, Top)) := e in
  match lookup key_eqb (pkg, id) packages with
  | None => false
  | Some pins =>
      match make_spi 0 pins std (toolchain Top) with
      | None => false
      | Some io =>
          Bool.eqb (has_subsignal "clk" io) (String.eqb (toolchain Top) "ise")
      end
  end.

End XilinxPlatform.

(** ** Properties of the Lattice bridge *)

Import Lattice.

(** *** Arithmetic of the two registers *)

Lemma bits_for_fits (n : Z) : 0 <= n -> n < 2 ^ bits_for n.
Proof.
  intros Hn. unfold bits_for.
  destruct (Z.eqb_spec n 0) as [->|Hne]; [reflexivity|].
  replace (Z.log2 n + 1) with (Z.succ (Z.log2 n)) by lia.
  apply Z.log2_spec; lia.
Qed.

Lemma head_width_fits (W : Z) : 1 <= W -> W - 1 < 2 ^ head_width W.
Proof. intros HW. apply bits_for_fits; lia. Qed.

Lemma Cat_arith (b : bool) (x : Z) : Cat b x = 2 * x + Z.b2z b.
Proof.
  unfold Cat. rewrite Z.shiftl_mul_pow2 by lia.
  change (2 ^ 1) with 2.
  apply Z.bits_inj'; intros n Hn.
  rewrite Z.lor_spec.
  destruct (Z.eq_dec n 0) as [->|Hpos].
  - rewrite (Z.mul_comm x 2), Z.testbit_0_r.
    replace (2 * x) with (2 * x + Z.b2z false) by (simpl; lia).
    rewrite Z.testbit_0_r. destruct b; reflexivity.
  - replace n with (Z.succ (n - 1)) by lia.
    rewrite (Z.mul_comm x 2), Z.testbit_succ_r by lia.
    replace (2 * x) with (2 * x + Z.b2z false) at 1 by (simpl; lia).
    rewrite Z.testbit_succ_r by lia.
    destruct b; simpl; rewrite ?Z.testbit_0_l; try reflexivity.
    replace (Z.succ (n - 1)) with n by lia.
    destruct n; try lia; reflexivity.
Qed.

Lemma shift_in_congr (M : Z) (l : list bool) :
  forall x y, x mod M = y mod M -> shift_in x l mod M = shift_in y l mod M.
Proof.
  unfold shift_in.
  induction l as [|b l IH]; intros x y Hxy; cbn [fold_left]; [exact Hxy|].
  apply IH.
  destruct (Z.eq_dec M 0) as [->|HM].
  - rewrite !Z.mod_0_r in Hxy. rewrite !Z.mod_0_r. lia.
  - rewrite (Z.add_mod (2 * x)), (Z.add_mod (2 * y)) by exact HM.
    rewrite (Z.mul_mod 2 x), (Z.mul_mod 2 y), Hxy by exact HM. reflexivity.
Qed.

Lemma shift_in_split (l : list bool) :
  forall x, shift_in x l = x * 2 ^ Z.of_nat (length l) + bits_value l.
Proof.
  unfold bits_value, shift_in.
  induction l as [|b l IH]; intros x.
  - simpl. lia.
  - cbn [fold_left length]. rewrite IH, (IH (2 * 0 + Z.b2z b)).
    rewrite Nat2Z.inj_succ, Z.pow_succ_r by lia. ring.
Qed.

Lemma bits_value_range (l : list bool) :
  0 <= bits_value l < 2 ^ Z.of_nat (length l).
Proof.
  unfold bits_value, shift_in.
  induction l as [|b l IH] using rev_ind.
  - simpl. lia.
  - rewrite fold_left_app, length_app, Nat2Z.inj_add.
    cbn [fold_left length]. change (Z.of_nat 1) with 1.
    rewrite Z.pow_add_r, Z.pow_1_r by lia.
    destruct b; cbn [Z.b2z]; lia.
Qed.

(** A full-width header replaces the accumulator entirely. *)
Lemma shift_in_full (W x : Z) (l : list bool) :
  Z.of_nat (length l) = W -> shift_in x l mod 2 ^ W = bits_value l.
Proof.
  intros Hlen. rewrite shift_in_split, Hlen.
  rewrite Z.add_comm, Z.mod_add by (apply Z.pow_nonzero; lia).
  apply Z.mod_small. rewrite <- Hlen. apply bits_value_range.
Qed.

Section BridgeFSM.

Variable W : Z.
Hypothesis HW : 1 <= W.

Lemma run_cons (s : regs) (i : wires) (l : list wires) :
  run W s (i :: l) = run W (step W s i) l.
Proof. reflexivity. Qed.

Lemma run_app (s : regs) (l1 l2 : list wires) :
  run W s (l1 ++ l2) = run W (run W s l1) l2.
Proof. unfold run. apply fold_left_app. Qed.

(** A step in HEAD when no reset is sampled. *)
Lemma step_head (s : regs) (i : wires) :
  fsm s = HEAD -> rst i = false ->
  step W s i =
    {| fsm := if head s =? 0 then XFER else HEAD;
       head := (head s - 1) mod 2 ^ head_width W;
       bits := (2 * bits s + Z.b2z (tdi i)) mod 2 ^ W |}.
Proof.
  intros Hs Hr. unfold step, trunc. rewrite Hs, Hr, Cat_arith. reflexivity.
Qed.

Lemma step_xfer (s : regs) (i : wires) :
  fsm s = XFER -> rst i = false ->
  step W s i =
    {| fsm := if bits s =? 0 then IDLE else XFER;
       head := head s;
       bits := (bits s - 1) mod 2 ^ W |}.
Proof.
  intros Hs Hr. unfold step, trunc. rewrite Hs, Hr. reflexivity.
Qed.

Lemma step_idle (s : regs) (i : wires) :
  fsm s = IDLE -> rst i = false ->
  step W s i =
    {| fsm := if jtag_sel1_shift i && tdi i then HEAD else IDLE;
       head := head s; bits := bits s |}.
Proof.
  intros Hs Hr. unfold step. rewrite Hs, Hr. reflexivity.
Qed.

(** The domain reset brings the FSM to IDLE and reloads [head]. *)
Lemma step_rst (s : regs) (i : wires) :
  rst i = true -> fsm (step W s i) = IDLE /\ head (step W s i) = W - 1.
Proof. intros Hr. unfold step. rewrite Hr. split; reflexivity. Qed.

(** HEAD lasts [head + 1] cycles and shifts one TDI bit in on each. *)
Lemma head_countdown (l : list wires) :
  forall s, fsm s = HEAD -> 0 <= head s < 2 ^ head_width W ->
    Z.of_nat (length l) = head s + 1 -> no_rst l ->
    fsm (run W s l) = XFER /\
    bits (run W s l) = shift_in (bits s) (map tdi l) mod 2 ^ W /\
    (forall k, (k < length l)%nat -> fsm (run W s (firstn k l)) = HEAD).
Proof.
  induction l as [|i l IH]; intros s Hs Hh Hlen Hnr.
  - simpl in Hlen. lia.
  - inversion Hnr as [|? ? Hi Hl]; subst.
    rewrite run_cons. pose proof (step_head s i Hs Hi) as Hstep.
    destruct (Z.eqb_spec (head s) 0) as [H0|Hne].
    + assert (l = []) as -> by (destruct l; [reflexivity|simpl in Hlen; lia]).
      rewrite Hstep. simpl. repeat split.
      intros k Hk. assert (k = 0)%nat as -> by lia. exact Hs.
    + assert (Hh' : (head s - 1) mod 2 ^ head_width W = head s - 1)
        by (apply Z.mod_small; lia).
      destruct (IH (step W s i)) as (Hf & Hb & Hk).
      * rewrite Hstep. reflexivity.
      * rewrite Hstep. simpl. rewrite Hh'. lia.
      * rewrite Hstep. simpl. rewrite Hh'. simpl in Hlen. lia.
      * exact Hl.
      * split; [exact Hf|]. split.
        -- rewrite Hb, Hstep. simpl.
           apply shift_in_congr. apply Z.mod_mod. apply Z.pow_nonzero; lia.
        -- intros [|k] Hlt; [exact Hs|].
           simpl firstn. rewrite run_cons. apply Hk. simpl in Hlt. lia.
Qed.

(** XFER lasts [bits + 1] cycles: the counter is tested before it is
    decremented, so the cycle with [bits = 0] is still a transfer cycle. *)
Lemma xfer_countdown (l : list wires) :
  forall s, fsm s = XFER -> 0 <= bits s < 2 ^ W ->
    Z.of_nat (length l) = bits s + 1 -> no_rst l ->
    fsm (run W s l) = IDLE /\
    (forall k, (k < length l)%nat ->
       fsm (run W s (firstn k l)) = XFER /\
       bits (run W s (firstn k l)) = bits s - Z.of_nat k).
Proof.
  induction l as [|i l IH]; intros s Hs Hb Hlen Hnr.
  - simpl in Hlen. lia.
  - inversion Hnr as [|? ? Hi Hl]; subst.
    rewrite run_cons. pose proof (step_xfer s i Hs Hi) as Hstep.
    destruct (Z.eqb_spec (bits s) 0) as [H0|Hne].
    + assert (l = []) as -> by (destruct l; [reflexivity|simpl in Hlen; lia]).
      rewrite Hstep. simpl. split; [reflexivity|].
      intros k Hk. assert (k = 0)%nat as -> by lia. simpl. split; [exact Hs|lia].
    + assert (Hb' : (bits s - 1) mod 2 ^ W = bits s - 1)
        by (apply Z.mod_small; lia).
      destruct (IH (step W s i)) as (Hf & Hk).
      * rewrite Hstep. reflexivity.
      * rewrite Hstep. simpl. rewrite Hb'. lia.
      * rewrite Hstep. simpl. rewrite Hb'. simpl in Hlen. lia.
      * exact Hl.
      * split; [exact Hf|].
        intros [|k] Hlt; [simpl; split; [exact Hs|lia]|].
        simpl firstn. rewrite run_cons.
        destruct (Hk k) as (Hk1 & Hk2); [simpl in Hlt; lia|].
        split; [exact Hk1|]. rewrite Hk2, Hstep. simpl. rewrite Hb'. lia.
Qed.

End BridgeFSM.

(** [shift_bit] is what either configuration presents during Shift-DR of
    the selected chain. *)
Lemma shift_bit_sim (t : bool) :
  shift_bit t =
  sim_wires {| s_sel := true; s_shift := true; s_capture := false;
               s_tck := true; s_tdi := t; s_miso := false |}.
Proof. reflexivity. Qed.

Lemma shift_bit_hw (t : bool) :
  shift_bit t =
  hw_wires true {| JTDI := t; JTCK := true; JRTI1 := false; JRSTN := true;
                   JSHIFT := true; JCE1 := true |} false.
Proof. reflexivity. Qed.

(** In the hardware configuration a Capture-DR cycle of chain 1 resets the
    whole [sync] domain: bridge FSM, header counter and detector. *)
Lemma hw_capture_resets (W : Z) (s : hw_regs) (p : jtagg_out) (miso : bool) :
  JCE1 p = true -> JSHIFT p = false ->
  det (hw_step W s p miso) = Detector.det_reset /\
  fsm (core (hw_step W s p miso)) = IDLE /\
  head (core (hw_step W s p miso)) = W - 1.
Proof.
  intros Hce Hsh. unfold hw_step, hw_wires, step, rst, Detector.det_step.
  cbn. rewrite Hce, Hsh. cbn. repeat split.
Qed.

(** *** Header phase *)

(** C1 (amended).  For every width [W >= 1]: from IDLE with the header
    counter at its reset value [W - 1], a cycle with [jtag_sel1_shift] and
    [tdi = 1] moves the FSM to HEAD without touching the accumulator (the
    triggering bit is not a header bit); the FSM then stays in HEAD for
    exactly [W] further cycles, shifts the [W] TDI bits of those cycles into
    the accumulator, first bit most significant, and is in XFER exactly [W]
    cycles after the triggering one. *)
Theorem header_takes_W_cycles (W : Z) (s0 : regs) (i0 : wires) (l : list wires) :
  1 <= W ->
  fsm s0 = IDLE -> head s0 = W - 1 ->
  rst i0 = false -> jtag_sel1_shift i0 = true -> tdi i0 = true ->
  Z.of_nat (length l) = W -> no_rst l ->
  fsm (step W s0 i0) = HEAD /\
  bits (step W s0 i0) = bits s0 /\
  (forall k, (k < length l)%nat -> fsm (run W s0 (i0 :: firstn k l)) = HEAD) /\
  fsm (run W s0 (i0 :: l)) = XFER /\
  bits (run W s0 (i0 :: l)) = bits_value (map tdi l).
Proof.
  intros HW Hs Hh Hr Hsh Ht Hlen Hnr.
  pose proof (step_idle W s0 i0 Hs Hr) as Hstep.
  rewrite Hsh, Ht in Hstep. cbn [andb] in Hstep.
  pose proof (head_width_fits W HW) as Hfit.
  destruct (head_countdown W HW l (step W s0 i0)) as (Hx & Hb & Hk).
  - rewrite Hstep. reflexivity.
  - rewrite Hstep. cbn [head]. lia.
  - rewrite Hstep. cbn [head]. lia.
  - exact Hnr.
  - split; [rewrite Hstep; reflexivity|].
    split; [rewrite Hstep; reflexivity|].
    split; [intros k Hlt; rewrite run_cons; apply Hk; exact Hlt|].
    rewrite run_cons. split; [exact Hx|].
    rewrite Hb. apply shift_in_full. rewrite length_map. exact Hlen.
Qed.

Lemma header_takes_W_cycles_witness :
  let l := map shift_bit [true; false; true; true] in
  fsm (run 4 (reset_regs 4 0) (shift_bit true :: l)) = XFER /\
  bits (run 4 (reset_regs 4 0) (shift_bit true :: l)) = 11.
Proof.
  destruct (header_takes_W_cycles 4 (reset_regs 4 0) (shift_bit true)
              (map shift_bit [true; false; true; true]))
    as (_ & _ & _ & Hx & Hb);
    try reflexivity; try lia; [repeat constructor|].
  split; [exact Hx|exact Hb].
Defined.

(** C1 as stated fails.  With [W = 4] and TDI = 1,0,0,0,0 after reset: four
    bits after (and including) the triggering 1 the FSM is still in HEAD;
    it is in XFER only after the fifth bit, and the accumulated header is
    0 = 0b0000, so the triggering 1 is not one of the [W] header bits.
    With [W = 3], a second header started without an intervening reset
    finds [head = 3] and is still in HEAD three cycles after its trigger. *)
Lemma trigger_bit_outside_header :
  fsm (run 4 (reset_regs 4 0)
         (map shift_bit [true; false; false; false])) = HEAD /\
  fsm (run 4 (reset_regs 4 0)
         (map shift_bit [true; false; false; false; false])) = XFER /\
  bits (run 4 (reset_regs 4 0)
          (map shift_bit [true; false; false; false; false])) = 0 /\
  bits_value [true; false; false; false] = 8 /\
  fsm (run 3 (reset_regs 3 0)
         (map shift_bit [true; false; false; false; false])) = IDLE /\
  head (run 3 (reset_regs 3 0)
          (map shift_bit [true; false; false; false; false])) = 3 /\
  fsm (run 3 (reset_regs 3 0)
         (map shift_bit [true; false; false; false; false;
                         true; false; false; false])) = HEAD.
Proof. repeat split; vm_compute; reflexivity. Qed.

Lemma after_trigger (W : Z) (s0 : regs) (i0 : wires) :
  fsm s0 = IDLE -> rst i0 = false ->
  jtag_sel1_shift i0 = true -> tdi i0 = true ->
  step W s0 i0 = {| fsm := HEAD; head := head s0; bits := bits s0 |}.
Proof.
  intros Hs Hr Hsh Ht. rewrite (step_idle W s0 i0 Hs Hr), Hsh, Ht. reflexivity.
Qed.

Lemma bits_value_zeros (l : list bool) :
  Forall (fun b => b = false) l -> bits_value l = 0.
Proof.
  unfold bits_value, shift_in.
  induction 1 as [|b l Hb _ IH]; [reflexivity|].
  subst b. cbn [fold_left]. exact IH.
Qed.

Lemma step_wf (W : Z) (s : regs) (i : wires) :
  1 <= W -> wf W s -> wf W (step W s i).
Proof.
  intros HW [Hh Hb].
  pose proof (head_width_fits W HW) as Hfit.
  assert (HpW : 0 < 2 ^ W) by (apply Z.pow_pos_nonneg; lia).
  assert (Hph : 0 < 2 ^ head_width W) by lia.
  unfold wf, step, trunc.
  destruct (rst i), (fsm s); cbn [head bits]; split;
    try lia; try (apply Z.mod_pos_bound; assumption).
Qed.

(** *** Transfer phase *)

(** C2 (amended).  With [W = 4], after reset, the triggering 1 followed by
    the four header bits 1,0,1,1 leaves the FSM in XFER with the counter at
    0b1011 = 11, whatever the accumulator held before.  The FSM then spends
    exactly 12 cycles in XFER (counter 11 down to 0), with [cs_n] low and
    [mosi = tdi] on each of them, and is back in IDLE with [cs_n] high on
    the cycle after. *)
Theorem header_1011_transfer (b : Z) (l : list wires) :
  length l = 12%nat -> no_rst l ->
  let s := run 4 (reset_regs 4 b)
             (map shift_bit [true; true; false; true; true]) in
  fsm s = XFER /\ bits s = 11 /\
  (forall k, (k < 12)%nat ->
     let sk := run 4 s (firstn k l) in
     let ik := nth k l (shift_bit false) in
     fsm sk = XFER /\
     cs_n_o (outputs sk ik) = false /\
     mosi_o (outputs sk ik) = tdi ik) /\
  fsm (run 4 s l) = IDLE /\
  (forall i, cs_n_o (outputs (run 4 s l) i) = true).
Proof.
  intros Hlen Hnr s.
  assert (Hs : fsm s = XFER /\ bits s = 11).
  { subst s.
    change (map shift_bit [true; true; false; true; true])
      with (shift_bit true :: map shift_bit [true; false; true; true]).
    rewrite run_cons.
    rewrite (after_trigger 4 (reset_regs 4 b) (shift_bit true))
      by reflexivity.
    destruct (head_countdown 4 ltac:(lia)
                (map shift_bit [true; false; true; true])
                {| fsm := HEAD; head := head (reset_regs 4 b);
                   bits := bits (reset_regs 4 b) |})
      as (Hx & Hb & _);
      try reflexivity; [vm_compute; split; congruence|repeat constructor|].
    split; [exact Hx|]. rewrite Hb.
    apply (shift_in_full 4 b [true; false; true; true]). reflexivity. }
  destruct Hs as [Hx Hb].
  destruct (xfer_countdown 4 ltac:(lia) l s Hx) as (Hidle & Hk).
  - rewrite Hb. lia.
  - rewrite Hb, Hlen. reflexivity.
  - exact Hnr.
  - split; [exact Hx|]. split; [exact Hb|]. split.
    + intros k Hlt sk ik. destruct (Hk k) as [Hxk _]; [lia|].
      subst sk. split; [exact Hxk|]. split; [|reflexivity].
      unfold outputs, ongoing. cbn [cs_n_o]. rewrite Hxk. reflexivity.
    + split; [exact Hidle|]. intros i.
      unfold outputs, ongoing. cbn [cs_n_o]. rewrite Hidle. reflexivity.
Qed.

Lemma header_1011_transfer_witness :
  let l := map shift_bit (repeat true 12) in
  let s := run 4 (reset_regs 4 5)
             (map shift_bit [true; true; false; true; true]) in
  bits s = 11 /\ fsm (run 4 s (firstn 11 l)) = XFER /\ fsm (run 4 s l) = IDLE.
Proof.
  destruct (header_1011_transfer 5 (map shift_bit (repeat true 12)))
    as (_ & Hb & Hk & Hi & _); [reflexivity|repeat constructor|].
  split; [exact Hb|]. split; [|exact Hi].
  destruct (Hk 11%nat) as [H _]; [lia|exact H].
Defined.

(** C2 as stated fails.  With [W = 4] and TDI = 1,0,1,1 after reset, the
    FSM is still in HEAD after those four bits with [cs_n] high and only
    0b011 = 3 accumulated; whichever bit comes fifth, the counter at entry
    to XFER is 6 or 7, never 11. *)
Lemma tdi_1011_is_not_header_11 :
  let s := run 4 (reset_regs 4 0) (map shift_bit [true; false; true; true]) in
  fsm s = HEAD /\ bits s = 3 /\
  cs_n_o (outputs s (shift_bit false)) = true /\
  bits (step 4 s (shift_bit false)) = 6 /\
  bits (step 4 s (shift_bit true)) = 7.
Proof. repeat split; vm_compute; reflexivity. Qed.

(** C8 (amended).  The bridge FSM is total: from registers within their
    widths every input yields next registers within their widths, and the
    pin values are defined for every state and input.  An all-zero header
    is not an error: the FSM enters XFER with the counter at 0, drives
    [cs_n] low for exactly that one cycle, and is in IDLE with [cs_n] high
    on the next cycle whatever the inputs are. *)
Theorem zero_header_one_cycle
    (W : Z) (s0 : regs) (i0 : wires) (l : list wires) (i i' : wires) :
  1 <= W ->
  fsm s0 = IDLE -> head s0 = W - 1 ->
  rst i0 = false -> jtag_sel1_shift i0 = true -> tdi i0 = true ->
  Z.of_nat (length l) = W -> no_rst l ->
  Forall (fun x => tdi x = false) l ->
  (forall s x, wf W s ->
     exists s' o, step W s x = s' /\ outputs s x = o /\ wf W s') /\
  fsm (run W s0 (i0 :: l)) = XFER /\
  bits (run W s0 (i0 :: l)) = 0 /\
  cs_n_o (outputs (run W s0 (i0 :: l)) i) = false /\
  fsm (step W (run W s0 (i0 :: l)) i) = IDLE /\
  cs_n_o (outputs (step W (run W s0 (i0 :: l)) i) i') = true.
Proof.
  intros HW Hs Hh Hr Hsh Ht Hlen Hnr Hz.
  pose proof (head_width_fits W HW) as Hfit.
  split.
  { intros s x Hwf. exists (step W s x), (outputs s x).
    repeat split; apply step_wf; assumption. }
  rewrite run_cons, (after_trigger W s0 i0 Hs Hr Hsh Ht).
  destruct (head_countdown W HW l
              {| fsm := HEAD; head := head s0; bits := bits s0 |})
    as (Hx & Hb & _); cbn [fsm head]; try reflexivity; try lia; try exact Hnr.
  assert (Hb0 : bits (run W {| fsm := HEAD; head := head s0;
                                bits := bits s0 |} l) = 0).
  { rewrite Hb, shift_in_full by (rewrite length_map; exact Hlen).
    apply bits_value_zeros. apply Forall_map. exact Hz. }
  split; [exact Hx|]. split; [exact Hb0|].
  split; [unfold outputs, ongoing; cbn [cs_n_o]; rewrite Hx; reflexivity|].
  assert (Hidle : fsm (step W (run W {| fsm := HEAD; head := head s0;
                                        bits := bits s0 |} l) i) = IDLE).
  { unfold step. rewrite Hx, Hb0. destruct (rst i); reflexivity. }
  split; [exact Hidle|].
  unfold outputs, ongoing. cbn [cs_n_o]. rewrite Hidle. reflexivity.
Qed.

Lemma zero_header_one_cycle_witness :
  let s := run 4 (reset_regs 4 9)
             (shift_bit true :: map shift_bit [false; false; false; false]) in
  fsm s = XFER /\ bits s = 0 /\ fsm (step 4 s (shift_bit true)) = IDLE.
Proof.
  pose proof (zero_header_one_cycle 4 (reset_regs 4 9) (shift_bit true)
                (map shift_bit [false; false; false; false])
                (shift_bit true) (shift_bit true)) as H.
  destruct H as (_ & Hx & Hb & _ & Hi & _);
    [lia|reflexivity|reflexivity|reflexivity|reflexivity|reflexivity
    |reflexivity|repeat constructor|repeat constructor|].
  split; [exact Hx|]. split; [exact Hb|exact Hi].
Defined.

(** C8 as stated fails in its second half.  With [W = 4] and an all-zero
    header after the trigger, the FSM does perform a transfer cycle: it is
    in XFER with [cs_n] low, and only the following cycle is IDLE. *)
Lemma zero_header_still_transfers :
  let s := run 4 (reset_regs 4 0)
             (map shift_bit [true; false; false; false; false]) in
  bits s = 0 /\ fsm s = XFER /\
  cs_n_o (outputs s (shift_bit false)) = false /\
  fsm (step 4 s (shift_bit false)) = IDLE.
Proof. repeat split; vm_compute; reflexivity. Qed.

(** *** Combinational pin mapping *)

(** C3.  In every cycle of every run, [cs_n] is low exactly when the FSM
    register holds XFER; its value depends on the FSM register alone (not
    on the counters or the inputs), and it is high in IDLE and in HEAD. *)
Theorem cs_n_low_iff_xfer :
  (forall W s0 l i,
     cs_n_o (outputs (run W s0 l) i) = false <-> fsm (run W s0 l) = XFER) /\
  (forall s s' i i',
     fsm s = fsm s' -> cs_n_o (outputs s i) = cs_n_o (outputs s' i')) /\
  (forall s i, fsm s = IDLE \/ fsm s = HEAD -> cs_n_o (outputs s i) = true).
Proof.
  split; [|split].
  - intros W s0 l i. unfold outputs, ongoing. cbn [cs_n_o].
    destruct (fsm (run W s0 l)); cbn; split; congruence.
  - intros s s' i i' H. unfold outputs, ongoing. cbn [cs_n_o].
    rewrite H. reflexivity.
  - intros s i [H|H]; unfold outputs, ongoing; cbn [cs_n_o];
      rewrite H; reflexivity.
Qed.

Lemma cs_n_low_iff_xfer_witness :
  cs_n_o (outputs (reset_regs 4 0) (shift_bit true)) = true /\
  cs_n_o (outputs {| fsm := XFER; head := 3; bits := 2 |} (shift_bit true))
  = false.
Proof.
  destruct cs_n_low_iff_xfer as (Hiff & _ & Hhigh).
  split.
  - apply Hhigh. left. reflexivity.
  - apply (Hiff 4 {| fsm := XFER; head := 3; bits := 2 |} []). reflexivity.
Defined.

(** C9.  In the Lattice bridge [mosi.o] is the TDI wire and [jtag.tdo] is
    the MISO input in every cycle, for every register state and every
    value of [sel]; [sel] only drives the three output enables. *)
Theorem lattice_forwarding_ungated (s : regs) (i : wires) :
  mosi_o (outputs s i) = tdi i /\
  tdo (outputs s i) = miso_i i /\
  cs_n_oe (outputs s i) = sel i /\
  clk_oe (outputs s i) = sel i /\
  mosi_oe (outputs s i) = sel i.
Proof. repeat split. Qed.

(** C4 (amended).  The Lattice bridge drives the SPI clock with the inverse
    of TCK in every cycle; the Xilinx bridge drives it with the JTAG clock
    itself, not inverted.  In both, [mosi.o] is the TDI wire, so MOSI
    changes whenever the adapter changes TDI. *)
Theorem spi_clock_polarity :
  (forall s i, clk_o (outputs s i) = negb (tck i)) /\
  (forall s i, Xilinx.p_clk_o (Xilinx.outputs s i) = Xilinx.clk i) /\
  (forall s i, mosi_o (outputs s i) = tdi i) /\
  (forall s i, Xilinx.p_mosi_o (Xilinx.outputs s i) = Xilinx.tdi i).
Proof. repeat split. Qed.

(** C4 as stated fails for the Xilinx bridge: with the JTAG clock high its
    SPI clock output is high, not the inverse. *)
Lemma xilinx_spi_clock_not_inverted :
  let i := {| Xilinx.sel := true; Xilinx.shift := true; Xilinx.clk := true;
              Xilinx.tdi := false; Xilinx.miso_i := false |} in
  Xilinx.p_clk_o (Xilinx.outputs Xilinx.reset_regs i) = true /\
  Xilinx.p_clk_o (Xilinx.outputs Xilinx.reset_regs i) <> negb (Xilinx.clk i).
Proof. split; [reflexivity|discriminate]. Qed.

(** C5 (amended).  In the Lattice bridge the output enables of [cs_n],
    [clk] and [mosi] equal [sel] in every cycle; in the Xilinx bridge they
    equal [en = sel & shift], and [miso.oe] is constantly 0.  In both, a
    cycle with [sel] low has all three enables low, whatever the registers
    hold. *)
Theorem output_enables_follow_selection :
  (forall s i,
     cs_n_oe (outputs s i) = sel i /\
     clk_oe (outputs s i) = sel i /\
     mosi_oe (outputs s i) = sel i) /\
  (forall s i,
     Xilinx.p_cs_n_oe (Xilinx.outputs s i) = Xilinx.sel i && Xilinx.shift i /\
     Xilinx.p_clk_oe (Xilinx.outputs s i) = Xilinx.sel i && Xilinx.shift i /\
     Xilinx.p_mosi_oe (Xilinx.outputs s i) = Xilinx.sel i && Xilinx.shift i /\
     Xilinx.p_miso_oe (Xilinx.outputs s i) = false) /\
  (forall s i, sel i = false ->
     cs_n_oe (outputs s i) = false /\
     clk_oe (outputs s i) = false /\
     mosi_oe (outputs s i) = false) /\
  (forall s i, Xilinx.sel i = false ->
     Xilinx.p_cs_n_oe (Xilinx.outputs s i) = false /\
     Xilinx.p_clk_oe (Xilinx.outputs s i) = false /\
     Xilinx.p_mosi_oe (Xilinx.outputs s i) = false).
Proof.
  split; [|split; [|split]].
  - intros s i. repeat split.
  - intros s i. repeat split.
  - intros s i Hsel. unfold outputs. cbn. repeat split; exact Hsel.
  - intros s i Hsel. unfold Xilinx.outputs, Xilinx.en. cbn.
    rewrite Hsel. repeat split.
Qed.

Lemma output_enables_follow_selection_witness :
  let s := {| fsm := XFER; head := 3; bits := 7 |} in
  let i := {| sel := false; tck := true; tdi := true; miso_i := true;
              jtag_sel1_capture := false; jtag_sel1_shift := false |} in
  cs_n_oe (outputs s i) = false /\
  clk_oe (outputs s i) = false /\
  mosi_oe (outputs s i) = false.
Proof.
  destruct output_enables_follow_selection as (_ & _ & H & _).
  intros s i. apply (H s i). reflexivity.
Defined.

(** C5 as stated fails for the Xilinx bridge: with [sel] high outside
    Shift-DR the output enables are low, hence different from [sel]. *)
Lemma xilinx_enable_is_not_sel :
  let i := {| Xilinx.sel := true; Xilinx.shift := false; Xilinx.clk := false;
              Xilinx.tdi := false; Xilinx.miso_i := false |} in
  Xilinx.p_cs_n_oe (Xilinx.outputs Xilinx.reset_regs i) = false /\
  Xilinx.p_cs_n_oe (Xilinx.outputs Xilinx.reset_regs i) <> Xilinx.sel i.
Proof. split; [reflexivity|discriminate]. Qed.

(** C6 (amended).  In XFER, as in every state, [mosi] is the TDI bit of the
    very cycle whose edge decrements the transfer counter.  In the Lattice
    bridge [tdo] is the MISO input of the same cycle, with no delay inside
    the bridge; in the Xilinx bridge [tdo] is a register loaded from MISO
    on each rising clock edge and kept over the falling edge, so during a
    clock period it shows the MISO value sampled one period earlier. *)
Theorem transfer_data_path :
  (forall W s i, fsm s = XFER -> rst i = false ->
     mosi_o (outputs s i) = tdi i /\
     bits (step W s i) = trunc W (bits s - 1) /\
     tdo (outputs s i) = miso_i i) /\
  (forall s i i',
     Xilinx.p_mosi_o (Xilinx.outputs s i) = Xilinx.tdi i /\
     Xilinx.p_tdo (Xilinx.outputs (Xilinx.rise s i) i') = Xilinx.miso_i i /\
     Xilinx.p_tdo (Xilinx.outputs (Xilinx.tick s i) i') = Xilinx.miso_i i).
Proof.
  split.
  - intros W s i Hs Hr. repeat split.
    rewrite (step_xfer W s i Hs Hr). reflexivity.
  - intros s i i'. repeat split.
Qed.

Lemma transfer_data_path_witness :
  let s := {| fsm := XFER; head := 3; bits := 7 |} in
  mosi_o (outputs s (shift_bit true)) = true /\
  bits (step 4 s (shift_bit true)) = 6.
Proof.
  destruct transfer_data_path as (H & _).
  destruct (H 4 {| fsm := XFER; head := 3; bits := 7 |} (shift_bit true))
    as (Hm & Hb & _); [reflexivity|reflexivity|].
  split; [exact Hm|exact Hb].
Defined.

(** C6 as stated fails for the Lattice bridge.  In two consecutive XFER
    cycles with MISO = 1 then MISO = 0, [tdo] in the second cycle is 0, the
    MISO of that cycle, not the 1 seen one period earlier. *)
Lemma lattice_tdo_has_no_delay :
  let s := {| fsm := XFER; head := 3; bits := 7 |} in
  let i1 := {| sel := true; tck := true; tdi := true; miso_i := true;
               jtag_sel1_capture := false; jtag_sel1_shift := true |} in
  let i2 := {| sel := true; tck := true; tdi := true; miso_i := false;
               jtag_sel1_capture := false; jtag_sel1_shift := true |} in
  fsm (step 4 s i1) = XFER /\
  tdo (outputs (step 4 s i1) i2) = false /\
  tdo (outputs (step 4 s i1) i2) <> miso_i i1.
Proof. repeat split; discriminate. Qed.

(** ** Chain-selection detector *)

Import Lattice.Detector.

Lemma det_run_cons (s : det_regs) (p : jtagg_out) (l : list jtagg_out) :
  det_run s (p :: l) = det_run (det_step s false p) l.
Proof. reflexivity. Qed.

(** Outside the domain reset a set latch is cleared only from IDLE by a
    TAP reset. *)
Lemma det_step_keeps_sel (s : det_regs) (p : jtagg_out) :
  sel_reg s = true -> JRSTN p = true -> sel_reg (det_step s false p) = true.
Proof.
  intros Hs Hn. unfold det_step.
  destruct (dfsm s); rewrite ?Hn, ?Hs; cbn; first [exact Hs|reflexivity].
Qed.

(** C7 (amended).  In cycles where the shared domain reset is not asserted:
    a TAP reset ([JRSTN] low) seen in IDLE clears the latch and moves the
    detector to TLRST; in TLRST with the latch clear, [JRTI1] is copied
    into the latch on every clock, so a sampled 0 is sampled again on the
    next clock; once the latch is set the detector goes back to IDLE and
    the latch stays set as long as [JRSTN] stays high; a clear latch in
    IDLE stays clear as long as [JRSTN] stays high. *)
Theorem detector_samples_until_selected :
  (forall s p, dfsm s = D_IDLE -> JRSTN p = false ->
     det_step s false p = {| dfsm := D_TLRST; sel_reg := false |}) /\
  (forall s p, dfsm s = D_TLRST -> sel_reg s = false ->
     det_step s false p = {| dfsm := D_TLRST; sel_reg := JRTI1 p |}) /\
  (forall s p, dfsm s = D_TLRST -> sel_reg s = true ->
     det_step s false p = {| dfsm := D_IDLE; sel_reg := true |}) /\
  (forall l s, sel_reg s = true -> Forall (fun p => JRSTN p = true) l ->
     sel_reg (det_run s l) = true) /\
  (forall l s, dfsm s = D_IDLE -> Forall (fun p => JRSTN p = true) l ->
     det_run s l = s).
Proof.
  split; [|split; [|split; [|split]]].
  - intros s p Hs Hn. unfold det_step. rewrite Hs, Hn. reflexivity.
  - intros s p Hs Hsel. unfold det_step. rewrite Hs, Hsel. reflexivity.
  - intros s p Hs Hsel. unfold det_step. rewrite Hs, Hsel. reflexivity.
  - induction l as [|p l IH]; intros s Hsel Hall; [exact Hsel|].
    inversion Hall as [|? ? Hp Hl]; subst.
    rewrite det_run_cons. apply IH; [|exact Hl].
    apply det_step_keeps_sel; assumption.
  - induction l as [|p l IH]; intros s Hs Hall; [reflexivity|].
    inversion Hall as [|? ? Hp Hl]; subst.
    rewrite det_run_cons.
    assert (Hstep : det_step s false p = s)
      by (unfold det_step; rewrite Hs, Hp; reflexivity).
    rewrite Hstep. apply IH; assumption.
Qed.

Lemma detector_samples_until_selected_witness :
  let tlr  := {| JTDI := false; JTCK := true; JRTI1 := false; JRSTN := false;
                 JSHIFT := false; JCE1 := false |} in
  let rti1 := {| JTDI := false; JTCK := true; JRTI1 := true; JRSTN := true;
                 JSHIFT := false; JCE1 := false |} in
  let dr   := {| JTDI := true; JTCK := true; JRTI1 := false; JRSTN := true;
                 JSHIFT := true; JCE1 := true |} in
  det_step det_reset false tlr = {| dfsm := D_TLRST; sel_reg := false |} /\
  sel_reg (det_run {| dfsm := D_TLRST; sel_reg := true |} [rti1; dr; dr])
  = true.
Proof.
  intros tlr rti1 dr.
  destruct detector_samples_until_selected as (Hclr & _ & _ & Hhold & _).
  split.
  - apply Hclr; reflexivity.
  - apply Hhold; [reflexivity|repeat constructor].
Defined.

(** C7 as stated fails.  After a TAP reset, a first sample taken with
    [JRTI1] low leaves the latch at 0, but that value is not held: with no
    TAP reset in between, a later cycle with [JRTI1] high sets the latch.
    The capture is therefore repeated, not done exactly once. *)
Lemma detector_resamples_after_zero :
  let tlr  := {| JTDI := false; JTCK := true; JRTI1 := false; JRSTN := false;
                 JSHIFT := false; JCE1 := false |} in
  let rti0 := {| JTDI := false; JTCK := true; JRTI1 := false; JRSTN := true;
                 JSHIFT := false; JCE1 := false |} in
  let rti1 := {| JTDI := false; JTCK := true; JRTI1 := true; JRSTN := true;
                 JSHIFT := false; JCE1 := false |} in
  det_run det_reset [tlr] = {| dfsm := D_TLRST; sel_reg := false |} /\
  sel_reg (det_run det_reset [tlr; rti0]) = false /\
  sel_reg (det_run det_reset [tlr; rti0; rti1]) = true.
Proof. repeat split. Qed.

(** ** Properties of the Xilinx bridge *)

Lemma xilinx_run_cons (s : Xilinx.regs) e l :
  Xilinx.run s (e :: l) = Xilinx.run (Xilinx.step s e) l.
Proof. reflexivity. Qed.

Lemma xilinx_step_keeps_cs_low (s : Xilinx.regs) (e : Xilinx.edge * Xilinx.jtag_in) :
  Xilinx.cs_n_o s = false ->
  (fst e = Xilinx.Fall -> Xilinx.en (snd e) = true) ->
  Xilinx.cs_n_o (Xilinx.step s e) = false.
Proof.
  intros Hs He. unfold Xilinx.step. destruct e as [[|] i]; cbn in *.
  - exact Hs.
  - rewrite (He eq_refl), Hs. cbn. destruct (Xilinx.tdi i); reflexivity.
Qed.

(** C10.  The Xilinx bridge keeps no header or length counter: its only
    registers are [cs_n.o] and [tdo].  A falling edge with [en] high and
    [tdi] high drives [cs_n] low; once low, [cs_n] stays low over any
    sequence of clock edges on whose falling edges [en] is high; the only
    step that takes [cs_n] from low to high is a falling edge with [en]
    low, and such an edge always leaves [cs_n] high. *)
Theorem xilinx_cs_n_held_until_deselect :
  (forall s i, Xilinx.en i = true -> Xilinx.tdi i = true ->
     Xilinx.cs_n_o (Xilinx.fall s i) = false) /\
  (forall l s, Xilinx.cs_n_o s = false -> Xilinx.en_held l ->
     Xilinx.cs_n_o (Xilinx.run s l) = false) /\
  (forall s e, Xilinx.cs_n_o s = false ->
     Xilinx.cs_n_o (Xilinx.step s e) = true ->
     fst e = Xilinx.Fall /\ Xilinx.en (snd e) = false) /\
  (forall s i, Xilinx.en i = false ->
     Xilinx.cs_n_o (Xilinx.fall s i) = true).
Proof.
  split; [|split; [|split]].
  - intros s i He Ht. unfold Xilinx.fall. cbn. rewrite He, Ht. reflexivity.
  - induction l as [|e l IH]; intros s Hs Hall; [exact Hs|].
    inversion Hall as [|? ? He Hl]; subst.
    rewrite xilinx_run_cons. apply IH; [|exact Hl].
    apply xilinx_step_keeps_cs_low; assumption.
  - intros s [[|] i] Hs Hstep; cbn in *.
    + congruence.
    + split; [reflexivity|].
      destruct (Xilinx.en i) eqn:He; [|reflexivity].
      cbn in Hstep. destruct (Xilinx.tdi i); congruence.
  - intros s i He. unfold Xilinx.fall. cbn. rewrite He. reflexivity.
Qed.

Lemma xilinx_cs_n_held_until_deselect_witness :
  let hi := {| Xilinx.sel := true; Xilinx.shift := true; Xilinx.clk := true;
               Xilinx.tdi := true; Xilinx.miso_i := false |} in
  let lo := {| Xilinx.sel := true; Xilinx.shift := true; Xilinx.clk := false;
               Xilinx.tdi := false; Xilinx.miso_i := true |} in
  Xilinx.cs_n_o (Xilinx.fall Xilinx.reset_regs hi) = false /\
  Xilinx.cs_n_o
    (Xilinx.run (Xilinx.fall Xilinx.reset_regs hi)
       [(Xilinx.Rise, lo); (Xilinx.Fall, lo); (Xilinx.Rise, lo);
        (Xilinx.Fall, lo)]) = false.
Proof.
  intros hi lo.
  destruct xilinx_cs_n_held_until_deselect as (Hset & Hhold & _ & _).
  split.
  - apply Hset; reflexivity.
  - apply Hhold; [apply Hset; reflexivity|].
    repeat constructor; cbn; intros; reflexivity.
Defined.

(** ** Further properties of the Lattice bridge *)

Import LatticeTop.

Lemma step_idle_quiet (W : Z) (s : regs) (i : wires) :
  fsm s = IDLE -> marker i = false ->
  step W s i = {| fsm := IDLE;
                  head := if rst i then W - 1 else head s;
                  bits := bits s |}.
Proof.
  intros Hs Hm. unfold marker in Hm. unfold step.
  rewrite Hs, Hm. destruct (rst i); reflexivity.
Qed.

Lemma idle_run (W : Z) (l : list wires) :
  forall s, fsm s = IDLE -> Forall (fun i => marker i = false) l ->
    fsm (run W s l) = IDLE /\
    bits (run W s l) = bits s /\
    (head (run W s l) = head s \/ head (run W s l) = W - 1) /\
    (no_rst l -> run W s l = s).
Proof.
  induction l as [|i l IH]; intros s Hs Hall.
  - repeat split; try assumption. left. reflexivity.
  - inversion Hall as [|? ? Hi Hl]; subst.
    rewrite run_cons. pose proof (step_idle_quiet W s i Hs Hi) as Hstep.
    destruct (IH (step W s i)) as (Hf & Hb & Hh & Hn);
      [rewrite Hstep; reflexivity|exact Hl|].
    split; [exact Hf|]. split; [rewrite Hb, Hstep; reflexivity|]. split.
    + destruct Hh as [Hh|Hh]; [|right; exact Hh].
      rewrite Hh, Hstep. cbn [head]. destruct (rst i); [right|left]; reflexivity.
    + intros Hnr. inversion Hnr as [|? ? Hri Hrl]; subst.
      rewrite (Hn Hrl), Hstep, Hri. destruct s; cbn in *; congruence.
Qed.

(** After its last cycle the header counter has wrapped to all ones. *)
Lemma head_countdown_end (W : Z) (l : list wires) :
  1 <= W ->
  forall s, fsm s = HEAD -> 0 <= head s < 2 ^ head_width W ->
    Z.of_nat (length l) = head s + 1 -> no_rst l ->
    head (run W s l) = 2 ^ head_width W - 1.
Proof.
  intros HW. induction l as [|i l IH]; intros s Hs Hh Hlen Hnr.
  - simpl in Hlen. lia.
  - inversion Hnr as [|? ? Hi Hl]; subst.
    rewrite run_cons. pose proof (step_head W s i Hs Hi) as Hstep.
    destruct (Z.eqb_spec (head s) 0) as [H0|Hne].
    + assert (l = []) as -> by (destruct l; [reflexivity|simpl in Hlen; lia]).
      rewrite Hstep. cbn [run fold_left head]. rewrite H0.
      replace (0 - 1) with (-1 * 1) by lia.
      replace (-1 * 1) with (2 ^ head_width W - 1 + -1 * 2 ^ head_width W)
        by lia.
      rewrite Z.mod_add by lia. apply Z.mod_small. lia.
    + assert (Hh' : (head s - 1) mod 2 ^ head_width W = head s - 1)
        by (apply Z.mod_small; lia).
      apply IH.
      * rewrite Hstep. reflexivity.
      * rewrite Hstep. cbn [head]. rewrite Hh'. lia.
      * rewrite Hstep. cbn [head]. rewrite Hh'. simpl in Hlen. lia.
      * exact Hl.
Qed.

Lemma xfer_keeps_head (W : Z) (l : list wires) :
  forall s, fsm s = XFER -> 0 <= bits s < 2 ^ W ->
    Z.of_nat (length l) = bits s + 1 -> no_rst l ->
    head (run W s l) = head s.
Proof.
  induction l as [|i l IH]; intros s Hs Hb Hlen Hnr; [reflexivity|].
  inversion Hnr as [|? ? Hi Hl]; subst.
  rewrite run_cons. pose proof (step_xfer W s i Hs Hi) as Hstep.
  destruct (Z.eqb_spec (bits s) 0) as [H0|Hne].
  - assert (l = []) as -> by (destruct l; [reflexivity|simpl in Hlen; lia]).
    rewrite Hstep. reflexivity.
  - assert (Hb' : (bits s - 1) mod 2 ^ W = bits s - 1)
      by (apply Z.mod_small; lia).
    rewrite IH; try exact Hl.
    + rewrite Hstep. reflexivity.
    + rewrite Hstep. reflexivity.
    + rewrite Hstep. cbn [bits]. rewrite Hb'. lia.
    + rewrite Hstep. cbn [bits]. rewrite Hb'. simpl in Hlen. lia.
Qed.

(** Where a complete transaction leaves the registers. *)
Lemma transaction_run
    (W : Z) (s0 : regs) (i0 : wires) (hdr payload : list wires) :
  1 <= W -> ready W s0 -> rst i0 = false -> marker i0 = true ->
  Z.of_nat (length hdr) = W -> no_rst hdr ->
  Z.of_nat (length payload) = bits_value (map tdi hdr) + 1 -> no_rst payload ->
  let sx := run W s0 (i0 :: hdr) in
  fsm sx = XFER /\ bits sx = bits_value (map tdi hdr) /\
  head sx = 2 ^ head_width W - 1 /\
  (forall k, (k < length hdr)%nat ->
     fsm (run W s0 (i0 :: firstn k hdr)) = HEAD) /\
  (forall k, (k < length payload)%nat ->
     fsm (run W sx (firstn k payload)) = XFER /\
     bits (run W sx (firstn k payload)) = bits sx - Z.of_nat k) /\
  fsm (run W sx payload) = IDLE /\
  head (run W sx payload) = 2 ^ head_width W - 1.
Proof.
  intros HW [Hs Hh] Hr Hm Hlen Hnr Hplen Hpnr sx.
  unfold marker in Hm. apply andb_prop in Hm as [Hsh Ht].
  pose proof (head_width_fits W HW) as Hfit.
  pose proof (after_trigger W s0 i0 Hs Hr Hsh Ht) as Hstep.
  assert (Hhead1 : fsm (step W s0 i0) = HEAD) by (rewrite Hstep; reflexivity).
  assert (Hrange : 0 <= head (step W s0 i0) < 2 ^ head_width W)
    by (rewrite Hstep; cbn [head]; lia).
  assert (Hl1 : Z.of_nat (length hdr) = head (step W s0 i0) + 1)
    by (rewrite Hstep; cbn [head]; lia).
  destruct (head_countdown W HW hdr _ Hhead1 Hrange Hl1 Hnr) as (Hx & Hb & Hk).
  pose proof (head_countdown_end W hdr HW _ Hhead1 Hrange Hl1 Hnr) as Hend.
  assert (Hbx : bits sx = bits_value (map tdi hdr)).
  { subst sx. rewrite run_cons, Hb. apply shift_in_full.
    rewrite length_map. exact Hlen. }
  assert (Hfx : fsm sx = XFER) by (subst sx; rewrite run_cons; exact Hx).
  assert (Hhx : head sx = 2 ^ head_width W - 1)
    by (subst sx; rewrite run_cons; exact Hend).
  assert (Hbr : 0 <= bits sx < 2 ^ W).
  { rewrite Hbx, <- Hlen, <- (length_map tdi hdr). apply bits_value_range. }
  assert (Hpl : Z.of_nat (length payload) = bits sx + 1) by (rewrite Hbx; exact Hplen).
  destruct (xfer_countdown W HW payload sx Hfx Hbr Hpl Hpnr) as (Hidle & Hpk).
  split; [exact Hfx|]. split; [exact Hbx|]. split; [exact Hhx|].
  split; [intros k Hlt; rewrite run_cons; apply Hk; exact Hlt|].
  split; [exact Hpk|]. split; [exact Hidle|].
  rewrite (xfer_keeps_head W payload sx Hfx Hbr Hpl Hpnr). exact Hhx.
Qed.

Lemma head_width_pow2 (k : Z) : 1 <= k -> head_width (2 ^ k) = k.
Proof.
  intros Hk. unfold head_width, bits_for.
  assert (Hp : 2 <= 2 ^ k).
  { change 2 with (2 ^ 1) at 1. apply Z.pow_le_mono_r; lia. }
  destruct (Z.eqb_spec (2 ^ k - 1) 0) as [H0|_]; [lia|].
  replace (2 ^ k - 1) with (Z.pred (2 ^ k)) by lia.
  rewrite Z.log2_pred_pow2 by lia. lia.
Qed.

(** X1.  Register ranges are an invariant of every run, capture resets
    included: [head] stays below [2 ^ len(head)] and [bits] below
    [2 ^ W]. *)
Theorem registers_stay_in_range (W : Z) (s : regs) (l : list wires) :
  1 <= W -> wf W s -> wf W (run W s l).
Proof.
  intros HW Hwf. revert s Hwf.
  induction l as [|i l IH]; intros s Hwf; [exact Hwf|].
  rewrite run_cons. apply IH. apply step_wf; assumption.
Qed.

Lemma registers_stay_in_range_witness :
  wf 4 (run 4 (reset_regs 4 9)
          (map shift_bit [true; false; false; false; false; true; true])).
Proof.
  apply registers_stay_in_range; [lia|].
  unfold wf. cbn. split; lia.
Defined.

(** X2.  Cycles before the marker are dropped: from IDLE, over any run of
    cycles in which [jtag_sel1_shift & tdi] is low, the FSM stays in IDLE
    with [cs_n] high and the accumulator untouched; the header counter is
    either untouched or reloaded by a capture reset, and without a reset
    the registers do not change at all. *)
Theorem idle_until_marker (W : Z) (s : regs) (l : list wires) :
  fsm s = IDLE -> Forall (fun i => marker i = false) l ->
  fsm (run W s l) = IDLE /\
  bits (run W s l) = bits s /\
  (head (run W s l) = head s \/ head (run W s l) = W - 1) /\
  (no_rst l -> run W s l = s) /\
  (forall i, cs_n_o (outputs (run W s l) i) = true).
Proof.
  intros Hs Hall.
  destruct (idle_run W l s Hs Hall) as (Hf & Hb & Hh & Hn).
  repeat split; try assumption.
  intros i. unfold outputs, ongoing. cbn [cs_n_o]. rewrite Hf. reflexivity.
Qed.

Lemma idle_until_marker_witness :
  run 4 (reset_regs 4 6) (map shift_bit [false; false; false])
  = reset_regs 4 6.
Proof.
  destruct (idle_until_marker 4 (reset_regs 4 6)
              (map shift_bit [false; false; false]))
    as (_ & _ & _ & H & _); [reflexivity|repeat constructor|].
  apply H. repeat constructor.
Defined.

(** X3.  A complete transaction, for any width and any header.  From IDLE
    with [head = W - 1]: the marker cycle, [W] header cycles and [N + 1]
    payload cycles, [N] being the value of the header bits, bring the FSM
    back to IDLE after [1 + W + N + 1] cycles; [cs_n] is high on the marker
    and header cycles, low on each of the [N + 1] payload cycles while the
    counter runs from [N] down to 0, and high again afterwards.  Only a
    capture reset is excluded; [sel] and [shift] may do anything after the
    marker. *)
Theorem transaction_frames_payload
    (W : Z) (s0 : regs) (i0 : wires) (hdr payload : list wires) (i : wires) :
  1 <= W -> ready W s0 -> rst i0 = false -> marker i0 = true ->
  Z.of_nat (length hdr) = W -> no_rst hdr ->
  Z.of_nat (length payload) = bits_value (map tdi hdr) + 1 ->
  no_rst payload ->
  cs_n_o (outputs s0 i) = true /\
  (forall k, (k < length hdr)%nat ->
     cs_n_o (outputs (run W s0 (i0 :: firstn k hdr)) i) = true) /\
  (forall k, (k < length payload)%nat ->
     cs_n_o (outputs (run W s0 (i0 :: hdr ++ firstn k payload)) i) = false /\
     bits (run W s0 (i0 :: hdr ++ firstn k payload))
     = bits_value (map tdi hdr) - Z.of_nat k) /\
  fsm (run W s0 (i0 :: hdr ++ payload)) = IDLE /\
  cs_n_o (outputs (run W s0 (i0 :: hdr ++ payload)) i) = true.
Proof.
  intros HW Hready Hr Hm Hlen Hnr Hplen Hpnr.
  destruct (transaction_run W s0 i0 hdr payload HW Hready Hr Hm Hlen Hnr
              Hplen Hpnr) as (Hfx & Hbx & _ & Hk & Hpk & Hidle & _).
  destruct Hready as [Hs _].
  assert (Hcs : forall s, cs_n_o (outputs s i) = negb (fsm_state_eqb (fsm s) XFER))
    by reflexivity.
  split; [rewrite Hcs, Hs; reflexivity|].
  split; [intros k Hlt; rewrite Hcs, (Hk k Hlt); reflexivity|].
  split.
  - intros k Hlt.
    replace (i0 :: hdr ++ firstn k payload)
      with ((i0 :: hdr) ++ firstn k payload) by reflexivity.
    rewrite run_app. destruct (Hpk k Hlt) as [Hxk Hbk].
    split; [rewrite Hcs, Hxk; reflexivity|]. rewrite Hbk, Hbx. reflexivity.
  - replace (i0 :: hdr ++ payload) with ((i0 :: hdr) ++ payload) by reflexivity.
    rewrite run_app. split; [exact Hidle|]. rewrite Hcs, Hidle. reflexivity.
Qed.

Lemma transaction_frames_payload_witness :
  fsm (run 3 (reset_regs 3 0)
         (shift_bit true :: map shift_bit [false; true; false]
            ++ map shift_bit [true; true; false])) = IDLE.
Proof.
  destruct (transaction_frames_payload 3 (reset_regs 3 0) (shift_bit true)
              (map shift_bit [false; true; false])
              (map shift_bit [true; true; false]) (shift_bit false))
    as (_ & _ & _ & H & _);
    [lia|split; reflexivity|reflexivity|reflexivity|reflexivity
    |repeat constructor|reflexivity|repeat constructor|].
  exact H.
Defined.

(** X4.  A capture cycle resynchronises the bridge from any register state
    whatsoever: after it the FSM is in IDLE with [head = W - 1] and [cs_n]
    is high, and this remains so over any further cycles without a marker,
    further captures included. *)
Theorem capture_makes_ready
    (W : Z) (s : regs) (ic : wires) (l : list wires) (i : wires) :
  rst ic = true -> Forall (fun x => marker x = false) l ->
  ready W (run W s (ic :: l)) /\
  cs_n_o (outputs (run W s (ic :: l)) i) = true.
Proof.
  intros Hr Hall. rewrite run_cons.
  destruct (step_rst W s ic Hr) as [Hf Hh].
  destruct (idle_run W l (step W s ic) Hf Hall) as (Hf' & _ & Hh' & _).
  split.
  - split; [exact Hf'|]. destruct Hh' as [H|H]; [rewrite H; exact Hh|exact H].
  - unfold outputs, ongoing. cbn [cs_n_o]. rewrite Hf'. reflexivity.
Qed.

Lemma capture_makes_ready_witness :
  let cap := {| sel := true; tck := true; tdi := true; miso_i := false;
                jtag_sel1_capture := true; jtag_sel1_shift := false |} in
  ready 4 (run 4 {| fsm := XFER; head := 2; bits := 9 |}
             (cap :: map shift_bit [false; false])).
Proof.
  intros cap.
  destruct (capture_makes_ready 4 {| fsm := XFER; head := 2; bits := 9 |} cap
              (map shift_bit [false; false]) cap) as [H _];
    [reflexivity|repeat constructor|exact H].
Defined.

(** X5.  After a complete transaction the header counter is at
    [2 ^ len(head) - 1].  When [W] is a power of two ([W = 2 ^ k],
    [k >= 1], as for the default 32) this is [W - 1]: the bridge is ready
    for the next marker without any capture reset in between. *)
Theorem transaction_leaves_ready_pow2
    (k : Z) (s0 : regs) (i0 : wires) (hdr payload : list wires) :
  1 <= k -> ready (2 ^ k) s0 -> rst i0 = false -> marker i0 = true ->
  Z.of_nat (length hdr) = 2 ^ k -> no_rst hdr ->
  Z.of_nat (length payload) = bits_value (map tdi hdr) + 1 ->
  no_rst payload ->
  ready (2 ^ k) (run (2 ^ k) s0 (i0 :: hdr ++ payload)).
Proof.
  intros Hk Hready Hr Hm Hlen Hnr Hplen Hpnr.
  assert (HW : 1 <= 2 ^ k) by (pose proof (Z.pow_pos_nonneg 2 k); lia).
  destruct (transaction_run (2 ^ k) s0 i0 hdr payload HW Hready Hr Hm Hlen
              Hnr Hplen Hpnr) as (_ & _ & _ & _ & _ & Hidle & Hhead).
  replace (i0 :: hdr ++ payload) with ((i0 :: hdr) ++ payload) by reflexivity.
  rewrite run_app. split; [exact Hidle|].
  rewrite Hhead, head_width_pow2 by exact Hk. reflexivity.
Qed.

Lemma transaction_leaves_ready_pow2_witness :
  ready 4 (run 4 (reset_regs 4 0)
             (shift_bit true :: map shift_bit [false; false; true; false]
                ++ map shift_bit [true; true; true])).
Proof.
  apply (transaction_leaves_ready_pow2 2 (reset_regs 4 0) (shift_bit true)
           (map shift_bit [false; false; true; false])
           (map shift_bit [true; true; true]));
    [lia|split; reflexivity|reflexivity|reflexivity|reflexivity
    |repeat constructor|reflexivity|repeat constructor].
Defined.

Lemma sim_deselected_quiet (l : list sim_in) :
  Forall (fun j => s_sel j = false) l ->
  no_rst (map sim_wires l) /\
  Forall (fun i => marker i = false) (map sim_wires l).
Proof.
  intros Hall. unfold no_rst. split; apply Forall_map;
    (eapply Forall_impl; [|exact Hall]); intros j Hj;
    unfold rst, marker, sim_wires; cbn; rewrite Hj; reflexivity.
Qed.

(** X6.  Simulation configuration: while [sel] is low an idle bridge is
    inert.  Whatever [shift], [capture] and [tdi] do, the registers do not
    change, because both the marker test and the domain reset are gated by
    [sel]. *)
Theorem sim_deselected_idle_is_inert (W : Z) (s : regs) (l : list sim_in) :
  fsm s = IDLE -> Forall (fun j => s_sel j = false) l ->
  sim_run W s l = s.
Proof.
  intros Hs Hall. destruct (sim_deselected_quiet l Hall) as [Hnr Hq].
  unfold sim_run.
  destruct (idle_run W (map sim_wires l) s Hs Hq) as (_ & _ & _ & H).
  apply H. exact Hnr.
Qed.

Lemma sim_deselected_idle_is_inert_witness :
  sim_run 4 (reset_regs 4 5)
    [ {| s_sel := false; s_shift := true; s_capture := false;
         s_tck := true; s_tdi := true; s_miso := false |};
      {| s_sel := false; s_shift := false; s_capture := true;
         s_tck := true; s_tdi := true; s_miso := false |} ]
  = reset_regs 4 5.
Proof.
  apply sim_deselected_idle_is_inert; [reflexivity|repeat constructor].
Defined.

(** X7.  Simulation configuration: dropping [sel] does not stop a transfer
    in progress.  From XFER with the counter at [n], [n + 1] cycles with
    [sel] low still keep the FSM in XFER with [cs_n.o] low on each of them
    (only the output enables go low), and it reaches IDLE after the last
    one as it would have with [sel] high. *)
Theorem sim_deselect_does_not_stop_transfer
    (W : Z) (s : regs) (l : list sim_in) (j : sim_in) :
  1 <= W -> fsm s = XFER -> 0 <= bits s < 2 ^ W ->
  Z.of_nat (length l) = bits s + 1 ->
  Forall (fun x => s_sel x = false) l ->
  (forall k, (k < length l)%nat ->
     fsm (sim_run W s (firstn k l)) = XFER /\
     cs_n_o (outputs (sim_run W s (firstn k l)) (sim_wires j)) = false) /\
  fsm (sim_run W s l) = IDLE.
Proof.
  intros HW Hs Hb Hlen Hall.
  destruct (sim_deselected_quiet l Hall) as [Hnr _].
  unfold sim_run.
  destruct (xfer_countdown W HW (map sim_wires l) s Hs Hb) as (Hidle & Hk);
    [rewrite length_map; exact Hlen|exact Hnr|].
  split; [|exact Hidle].
  intros k Hlt. rewrite <- firstn_map.
  destruct (Hk k) as [Hx _]; [rewrite length_map; exact Hlt|].
  split; [exact Hx|].
  unfold outputs, ongoing. cbn [cs_n_o]. rewrite Hx. reflexivity.
Qed.

Lemma sim_deselect_does_not_stop_transfer_witness :
  let off := {| s_sel := false; s_shift := false; s_capture := false;
                s_tck := true; s_tdi := false; s_miso := false |} in
  fsm (sim_run 4 {| fsm := XFER; head := 3; bits := 2 |} [off; off]) = XFER /\
  fsm (sim_run 4 {| fsm := XFER; head := 3; bits := 2 |} [off; off; off])
  = IDLE.
Proof.
  intros off.
  destruct (sim_deselect_does_not_stop_transfer 4
              {| fsm := XFER; head := 3; bits := 2 |} [off; off; off] off)
    as [Hk Hi];
    [lia|reflexivity|cbn; lia|reflexivity|repeat constructor|].
  split; [|exact Hi]. destruct (Hk 2%nat) as [H _]; [cbn; lia|exact H].
Defined.

Lemma hw_run_cons (W : Z) (s : hw_regs) pm l :
  hw_run W s (pm :: l) = hw_run W (hw_step W s (fst pm) (snd pm)) l.
Proof. reflexivity. Qed.

Lemma hw_deselected_stays (W : Z) (l : list (jtagg_out * bool)) :
  forall s, det s = Detector.det_reset ->
    Forall (fun pm => JRSTN (fst pm) = true) l ->
    det (hw_run W s l) = Detector.det_reset.
Proof.
  induction l as [|pm l IH]; intros s Hs Hall; [exact Hs|].
  inversion Hall as [|? ? Hp Hl]; subst.
  rewrite hw_run_cons. apply IH; [|exact Hl].
  unfold hw_step. cbn [det]. rewrite Hs. unfold Detector.det_step.
  destruct (rst _); [reflexivity|]. cbn. rewrite Hp. reflexivity.
Qed.

(** X8.  Hardware configuration: the detector registers sit in the same
    [sync] domain as the bridge, so a Capture-DR cycle of chain 1
    ([JCE1] high, [JSHIFT] low) clears [jtag.sel].  From then on, as long
    as [JRSTN] stays high, [sel] stays clear and the three output enables
    stay low, whatever else the primitive reports. *)
Theorem hw_capture_clears_selection
    (W : Z) (s : hw_regs) (p : jtagg_out) (miso : bool)
    (l : list (jtagg_out * bool)) (p' : jtagg_out) (miso' : bool) :
  JCE1 p = true -> JSHIFT p = false ->
  Forall (fun pm => JRSTN (fst pm) = true) l ->
  let s' := hw_run W (hw_step W s p miso) l in
  Detector.sel_reg (det s') = false /\
  cs_n_oe (hw_outputs s' p' miso') = false /\
  clk_oe (hw_outputs s' p' miso') = false /\
  mosi_oe (hw_outputs s' p' miso') = false.
Proof.
  intros Hce Hsh Hall s'.
  destruct (hw_capture_resets W s p miso Hce Hsh) as (Hdet & _ & _).
  pose proof (hw_deselected_stays W l _ Hdet Hall) as H.
  fold s' in H. unfold hw_outputs, outputs, hw_wires. cbn.
  rewrite H. repeat split.
Qed.

Lemma hw_capture_clears_selection_witness :
  let cap := {| JTDI := false; JTCK := true; JRTI1 := false; JRSTN := true;
                JSHIFT := false; JCE1 := true |} in
  let sh  := {| JTDI := true; JTCK := true; JRTI1 := false; JRSTN := true;
                JSHIFT := true; JCE1 := true |} in
  let s := {| det := {| Detector.dfsm := Detector.D_IDLE;
                        Detector.sel_reg := true |};
              core := reset_regs 4 0 |} in
  Detector.sel_reg (det (hw_run 4 (hw_step 4 s cap false)
                           [(sh, false); (sh, false)])) = false.
Proof.
  intros cap sh s.
  destruct (hw_capture_clears_selection 4 s cap false
              [(sh, false); (sh, false)] sh false) as [H _];
    [reflexivity|reflexivity|repeat constructor|exact H].
Defined.

(** ** Further properties of the detector *)

(** X9.  The latch is only ever set from TLRST by a high [JRTI1] in a cycle
    without domain reset: no other cycle takes [sel] from 0 to 1. *)
Theorem detector_select_needs_rti1
    (s : det_regs) (r : bool) (p : jtagg_out) :
  sel_reg s = false -> sel_reg (det_step s r p) = true ->
  r = false /\ dfsm s = D_TLRST /\ JRTI1 p = true.
Proof.
  intros Hs Hstep. unfold det_step in Hstep.
  destruct r; [cbn in Hstep; discriminate|].
  destruct (dfsm s) eqn:Hd.
  - destruct (negb (JRSTN p)); cbn in Hstep; congruence.
  - rewrite Hs in Hstep. cbn in Hstep. repeat split. exact Hstep.
Qed.

Lemma detector_select_needs_rti1_witness :
  let p := {| JTDI := false; JTCK := true; JRTI1 := true; JRSTN := true;
              JSHIFT := false; JCE1 := false |} in
  JRTI1 p = true /\ D_TLRST = D_TLRST.
Proof.
  intros p.
  destruct (detector_select_needs_rti1
              {| dfsm := D_TLRST; sel_reg := false |} false p)
    as (_ & Hd & Hp); [reflexivity|reflexivity|].
  split; [exact Hp|exact Hd].
Defined.

Lemma det_run_app (s : det_regs) (l1 l2 : list jtagg_out) :
  det_run s (l1 ++ l2) = det_run (det_run s l1) l2.
Proof. unfold det_run. apply fold_left_app. Qed.

Lemma det_wait (l : list jtagg_out) :
  Forall (fun p => JRTI1 p = false) l ->
  det_run {| dfsm := D_TLRST; sel_reg := false |} l
  = {| dfsm := D_TLRST; sel_reg := false |}.
Proof.
  induction 1 as [|p l Hp _ IH]; [reflexivity|].
  rewrite det_run_cons. unfold det_step at 1. cbn. rewrite Hp. exact IH.
Qed.

(** X10.  Selection sequence.  From IDLE, a cycle with [JRSTN] low followed
    by any number of cycles with [JRTI1] low keeps the latch clear; the
    first cycle with [JRTI1] high sets it, and the cycle after that brings
    the detector back to IDLE with the latch still set.  [JRSTN] is not
    looked at while waiting in TLRST. *)
Theorem detector_selects_on_first_rti1
    (s : det_regs) (p0 : jtagg_out) (zeros : list jtagg_out)
    (p1 p2 : jtagg_out) :
  dfsm s = D_IDLE -> JRSTN p0 = false ->
  Forall (fun p => JRTI1 p = false) zeros -> JRTI1 p1 = true ->
  (forall k, sel_reg (det_run s (p0 :: firstn k zeros)) = false) /\
  det_run s (p0 :: zeros ++ [p1]) = {| dfsm := D_TLRST; sel_reg := true |} /\
  det_run s (p0 :: zeros ++ [p1; p2]) = {| dfsm := D_IDLE; sel_reg := true |}.
Proof.
  intros Hs H0 Hz H1.
  assert (Hfirst : det_step s false p0 = {| dfsm := D_TLRST; sel_reg := false |})
    by (unfold det_step; rewrite Hs, H0; reflexivity).
  split; [|split].
  - intros k. rewrite det_run_cons, Hfirst, det_wait; [reflexivity|].
    pose proof Hz as Hz'. rewrite <- (firstn_skipn k zeros) in Hz'.
    apply Forall_app in Hz'. exact (proj1 Hz').
  - rewrite det_run_cons, Hfirst, det_run_app, (det_wait zeros Hz).
    cbn. unfold det_step. cbn. rewrite H1. reflexivity.
  - rewrite det_run_cons, Hfirst, det_run_app, (det_wait zeros Hz).
    cbn. unfold det_step. cbn. rewrite H1. reflexivity.
Qed.

Lemma detector_selects_on_first_rti1_witness :
  let tlr  := {| JTDI := false; JTCK := true; JRTI1 := false; JRSTN := false;
                 JSHIFT := false; JCE1 := false |} in
  let rti1 := {| JTDI := false; JTCK := true; JRTI1 := true; JRSTN := true;
                 JSHIFT := false; JCE1 := false |} in
  det_run det_reset (tlr :: [tlr; tlr] ++ [rti1])
  = {| dfsm := D_TLRST; sel_reg := true |}.
Proof.
  intros tlr rti1.
  destruct (detector_selects_on_first_rti1 det_reset tlr [tlr; tlr] rti1 rti1)
    as (_ & H & _);
    [reflexivity|reflexivity|repeat constructor|reflexivity|exact H].
Defined.

(** ** Further properties of the Xilinx bridge *)

Import XilinxTop.

Lemma xilinx_run_app (s : Xilinx.regs) l1 l2 :
  Xilinx.run s (l1 ++ l2) = Xilinx.run (Xilinx.run s l1) l2.
Proof. unfold Xilinx.run. apply fold_left_app. Qed.

Lemma xilinx_falls_keep_tdo (l : list (Xilinx.edge * Xilinx.jtag_in)) :
  only_falls l -> forall s, Xilinx.tdo (Xilinx.run s l) = Xilinx.tdo s.
Proof.
  induction 1 as [|e l He _ IH]; intros s; [reflexivity|].
  rewrite xilinx_run_cons, IH. unfold Xilinx.step. rewrite He. reflexivity.
Qed.

(** X11.  While [en] is high on every falling edge, [cs_n] after a trace is
    its initial value unless some falling edge carried [tdi = 1]: leading
    zero bits are dropped, the first high bit asserts [cs_n], and nothing
    that follows releases it. *)
Theorem xilinx_cs_n_closed_form
    (l : list (Xilinx.edge * Xilinx.jtag_in)) (s : Xilinx.regs) :
  Xilinx.en_held l ->
  Xilinx.cs_n_o (Xilinx.run s l) = Xilinx.cs_n_o s && negb (marker_seen l).
Proof.
  intros Hall. revert s.
  induction Hall as [|e l He _ IH]; intros s.
  - cbn. rewrite andb_true_r. reflexivity.
  - rewrite xilinx_run_cons, IH. unfold marker_seen. cbn [existsb].
    unfold Xilinx.step. destruct e as [[|] i]; cbn in *.
    + reflexivity.
    + rewrite (He eq_refl). cbn.
      destruct (Xilinx.tdi i); cbn; [rewrite andb_false_r|]; reflexivity.
Qed.

Lemma xilinx_cs_n_closed_form_witness :
  let b t := (Xilinx.Fall,
              {| Xilinx.sel := true; Xilinx.shift := true; Xilinx.clk := false;
                 Xilinx.tdi := t; Xilinx.miso_i := false |}) in
  Xilinx.cs_n_o (Xilinx.run Xilinx.reset_regs [b false; b false]) = true /\
  Xilinx.cs_n_o (Xilinx.run Xilinx.reset_regs [b false; b true; b false])
  = false.
Proof.
  intros b. split.
  - rewrite xilinx_cs_n_closed_form; [reflexivity|].
    repeat constructor; intros; reflexivity.
  - rewrite xilinx_cs_n_closed_form; [reflexivity|].
    repeat constructor; intros; reflexivity.
Defined.

(** X12.  The rise domain has no reset: after any trace, [tdo] holds the
    MISO level sampled at the last rising edge, whatever [sel] and [shift]
    were at any point, and falling edges never change it. *)
Theorem xilinx_tdo_is_last_rising_miso
    (l1 l2 : list (Xilinx.edge * Xilinx.jtag_in)) (i : Xilinx.jtag_in)
    (s : Xilinx.regs) :
  only_falls l2 ->
  Xilinx.tdo (Xilinx.run s (l1 ++ (Xilinx.Rise, i) :: l2)) = Xilinx.miso_i i /\
  Xilinx.tdo (Xilinx.run s l2) = Xilinx.tdo s.
Proof.
  intros Hf. split.
  - rewrite xilinx_run_app, xilinx_run_cons, xilinx_falls_keep_tdo by exact Hf.
    reflexivity.
  - apply xilinx_falls_keep_tdo. exact Hf.
Qed.

Lemma xilinx_tdo_is_last_rising_miso_witness :
  let off m := {| Xilinx.sel := false; Xilinx.shift := false;
                  Xilinx.clk := false; Xilinx.tdi := false;
                  Xilinx.miso_i := m |} in
  Xilinx.tdo (Xilinx.run Xilinx.reset_regs
                ([(Xilinx.Rise, off false)]
                   ++ (Xilinx.Rise, off true) :: [(Xilinx.Fall, off false)]))
  = true.
Proof.
  intros off.
  destruct (xilinx_tdo_is_last_rising_miso [(Xilinx.Rise, off false)]
              [(Xilinx.Fall, off false)] (off true) Xilinx.reset_regs)
    as [H _]; [repeat constructor|exact H].
Defined.

(** X13.  Ultrascale wiring of [j2s0] to STARTUPE3.  The three tristate
    controls are the complement of [en], so clock, chip select and data
    line 0 are released together; the data tristate word is 0b1110 when
    [en] is high and 0b1111 otherwise, so data lines 1 to 3 are never
    driven; [DO] carries [tdi] on line 0 only; and MISO is read from bit 1
    of [DI] whatever the other bits are. *)
Theorem ultrascale_startup_wiring
    (s : Xilinx.regs) (i : Xilinx.jtag_in) :
  let u := ultrascale_startup s i in
  USRCCLKTS u = negb (Xilinx.en i) /\
  FCSBTS u = negb (Xilinx.en i) /\
  DTS u = (if Xilinx.en i then 14 else 15) /\
  Z.testbit (DTS u) 0 = negb (Xilinx.en i) /\
  (forall k, 1 <= k <= 3 -> Z.testbit (DTS u) k = true) /\
  DO u = Z.b2z (Xilinx.tdi i) /\
  FCSBO u = Xilinx.cs_n_o s /\
  USRCCLKO u = Xilinx.clk i /\
  (forall a m b c, ultrascale_miso (Cat [a; m; b; c]) = m).
Proof.
  unfold ultrascale_startup, Xilinx.outputs. cbn.
  repeat split; try (destruct (Xilinx.en i); reflexivity);
    try (destruct (Xilinx.tdi i); reflexivity).
  - intros k Hk.
    assert (k = 1 \/ k = 2 \/ k = 3) as [->|[->| ->]] by lia;
      destruct (Xilinx.en i); reflexivity.
  - intros a m b c. destruct a, m, b, c; reflexivity.
Qed.

Lemma ultrascale_startup_wiring_witness :
  Z.testbit
    (DTS (ultrascale_startup Xilinx.reset_regs
            {| Xilinx.sel := true; Xilinx.shift := true; Xilinx.clk := true;
               Xilinx.tdi := true; Xilinx.miso_i := false |})) 2 = true.
Proof.
  destruct (ultrascale_startup_wiring Xilinx.reset_regs
              {| Xilinx.sel := true; Xilinx.shift := true; Xilinx.clk := true;
                 Xilinx.tdi := true; Xilinx.miso_i := false |})
    as (_ & _ & _ & _ & H & _).
  apply H. lia.
Defined.

(** ** Constructor options of the Lattice bridge *)

Import String.

Lemma kw_true_has (k : string) (kw : kwargs) :
  kw_true k kw = true -> kw_has k kw = true.
Proof. unfold kw_true, kw_has. destruct (kw_get k kw); congruence. Qed.

(** X14.  [JTAGtoSPI.__init__] raises [KeyError] exactly when a [jtagf] or
    [jtagg] keyword is present and neither is truthy.  A truthy [jtagf]
    selects JTAGF even when [jtagg] is truthy too (no error in that case);
    otherwise a truthy [jtagg] selects JTAGG; without either keyword no
    primitive is selected; and any other keyword is ignored. *)
Theorem init_selects_primitive (kw : kwargs) :
  (init kw = Init_KeyError <->
     kw_has "jtagf"%string kw || kw_has "jtagg"%string kw = true /\
     kw_true "jtagf"%string kw = false /\
     kw_true "jtagg"%string kw = false) /\
  (kw_true "jtagf"%string kw = true ->
     init kw = Init_ok (Some JTAGF) /\
     jtag_name (Some JTAGF) = Some "JTAGF"%string) /\
  (kw_true "jtagf"%string kw = false -> kw_true "jtagg"%string kw = true ->
     init kw = Init_ok (Some JTAGG) /\
     jtag_name (Some JTAGG) = Some "JTAGG"%string) /\
  (kw_has "jtagf"%string kw = false -> kw_has "jtagg"%string kw = false ->
     init kw = Init_ok None) /\
  (forall k v, k <> "jtagf"%string -> k <> "jtagg"%string ->
     init ((k, v) :: kw) = init kw).
Proof.
  split; [|split; [|split; [|split]]].
  - unfold init.
    destruct (kw_has "jtagf" kw || kw_has "jtagg" kw)%bool eqn:Hh,
             (kw_true "jtagf" kw) eqn:Hf, (kw_true "jtagg" kw) eqn:Hg;
      split; try discriminate; try tauto; intros (H1 & H2 & H3); discriminate.
  - intros Hf. split; [|reflexivity]. unfold init.
    rewrite (kw_true_has _ _ Hf), Hf. reflexivity.
  - intros Hf Hg. split; [|reflexivity]. unfold init.
    rewrite (kw_true_has _ _ Hg), Hf, Hg, orb_true_r. reflexivity.
  - intros Hf Hg. unfold init. rewrite Hf, Hg. reflexivity.
  - intros k v Hkf Hkg. unfold init, kw_has, kw_true. cbn [kw_get].
    apply String.eqb_neq in Hkf, Hkg.
    rewrite (String.eqb_sym "jtagf" k), (String.eqb_sym "jtagg" k), Hkf, Hkg.
    reflexivity.
Qed.

Lemma init_selects_primitive_witness :
  init [("jtagf"%string, true); ("jtagg"%string, true)]
  = Init_ok (Some JTAGF) /\
  init [("jtagf"%string, false)] = Init_KeyError.
Proof.
  split.
  - destruct (init_selects_primitive
                [("jtagf"%string, true); ("jtagg"%string, true)])
      as (_ & H & _).
    apply H. reflexivity.
  - destruct (init_selects_primitive [("jtagf"%string, false)]) as (H & _).
    apply H. repeat split.
Defined.

(** ** Xilinx platform *)

Import XilinxPlatform.
Local Open Scope string_scope.



Lemma pullups_nth (pu : string) (ps : list (option string)) :
  forall n k,
    nth_error (pullups pu n ps) k =
    option_map (fun p => Subsignal ("pullup" ++ format_nat (n + k))
                           [Pins p; Misc pu])
               (nth_error ps k).
Proof.
  induction ps as [|p ps IH]; intros n [|k]; try reflexivity.
  - cbn. rewrite Nat.add_0_r. reflexivity.
  - cbn [pullups nth_error]. rewrite IH.
    replace (S n + k)%nat with (n + S k)%nat by lia. reflexivity.
Qed.

(** The list [make_spi] returns, split at the point where the pull-ups
    start. *)
Lemma make_spi_split (i : nat) (pins : list (option string)) (std tc : string)
    (io : list io_elem) :
  make_spi i pins std tc = Some io ->
  exists cs_n clk mosi miso rest,
    pins = cs_n :: clk :: mosi :: miso :: rest /\
    io = ([Str "spiflash"; Num i;
           Subsignal "cs_n" [Pins cs_n];
           Subsignal "mosi" [Pins mosi];
           Subsignal "miso"
             [Pins miso;
              Misc (if String.eqb tc "ise" then "PULLUP" else "PULLUP TRUE")];
           IOStandard std]
          ++ (if pin_true clk then [Subsignal "clk" [Pins clk]] else [])
          ++ pullups (if String.eqb tc "ise" then "PULLUP" else "PULLUP TRUE")
               0 rest)%list.
Proof.
  destruct pins as [|a [|b [|c [|d rest]]]]; try discriminate.
  unfold make_spi. cbn [firstn skipn]. intros H. injection H as <-.
  exists a, b, c, d, rest. split; [reflexivity|].
  destruct (pin_true b); reflexivity.
Qed.

Lemma make_spi_aux_none (i : nat) (pins : list (option string))
    (std tc : string) :
  make_spi i pins std tc = None <-> (List.length pins < 4)%nat.
Proof.
  destruct pins as [|a [|b [|c [|d rest]]]]; cbn;
    (split; [intros H; try discriminate; lia|intros H; try reflexivity; lia]).
Qed.



(** X16.  Pull-ups of [make_spi]: the pin at position [4 + k] becomes the
    subsignal named ["pullup"] followed by the decimal [k], in the same
    order, right after the fixed part of the resource; it and [miso] carry
    ["PULLUP"] for the ISE toolchain and ["PULLUP TRUE"] for any other. *)
Theorem make_spi_pullups (i : nat) (pins : list (option string))
    (std tc : string) (io : list io_elem) (k : nat) :
  make_spi i pins std tc = Some io ->
  let pu := if String.eqb tc "ise" then "PULLUP" else "PULLUP TRUE" in
  nth_error io (6 + (if pin_true (nth 1 pins None) then 1 else 0) + k)
  = option_map (fun p => Subsignal ("pullup" ++ format_nat k)
                           [Pins p; Misc pu])
               (nth_error pins (4 + k)) /\
  nth_error io 4 = Some (Subsignal "miso" [Pins (nth 3 pins None); Misc pu]).
Proof.
  intros H pu.
  destruct (make_spi_split i pins std tc io H)
    as (a & b & c & d & rest & -> & ->).
  fold pu. cbn [nth]. split; [|reflexivity].
  replace (nth_error (a :: b :: c :: d :: rest) (4 + k))
    with (nth_error rest k) by reflexivity.
  destruct (pin_true b); cbn -[pullups format_nat String.append];
    rewrite pullups_nth; reflexivity.
Qed.

Lemma make_spi_pullups_witness :
  nth_error
    match make_spi 0 [Some "K19"; None; Some "D18"; Some "D19";
                      Some "G18"; Some "F18"] "LVCMOS25" "vivado" with
    | Some io => io
    | None => []
    end 7
  = Some (Subsignal "pullup1" [Pins (Some "F18"); Misc "PULLUP TRUE"]).
Proof.
  destruct (make_spi_pullups 0 [Some "K19"; None; Some "D18"; Some "D19";
                                Some "G18"; Some "F18"]
              "LVCMOS25" "vivado"
              [Str "spiflash"; Num 0;
               Subsignal "cs_n" [Pins (Some "K19")];
               Subsignal "mosi" [Pins (Some "D18")];
               Subsignal "miso" [Pins (Some "D19"); Misc "PULLUP TRUE"];
               IOStandard "LVCMOS25";
               Subsignal "pullup0" [Pins (Some "G18"); Misc "PULLUP TRUE"];
               Subsignal "pullup1" [Pins (Some "F18"); Misc "PULLUP TRUE"]]
              1) as [Hk _]; [reflexivity|].
  exact Hk.
Defined.

Lemma lookup_string_In {V : Type} (k : string) (d : list (string * V)) (v : V) :
  lookup String.eqb k d = Some v -> In (k, v) d.
Proof.
  induction d as [|[k' v'] d IH]; [discriminate|].
  cbn [lookup]. destruct (String.eqb_spec k k') as [->|Hne].
  - intros H. injection H as ->. left. reflexivity.
  - intros H. right. apply IH. exact H.
Qed.

Lemma pinouts_all_ok : forallb device_ok pinouts = true.
Proof. vm_compute. reflexivity. Qed.

Lemma device_resolves (device pkg : string) (id : pkg_id) (std : string)
    (Top : top) :
  lookup String.eqb device pinouts = Some (pkg, id, std, Top) ->
  exists pins io,
    lookup key_eqb (pkg, id) packages = Some pins /\
    make_spi 0 pins std (toolchain Top) = Some io /\
    has_subsignal "clk" io = String.eqb (toolchain Top) "ise".
Proof.
  intros H. apply lookup_string_In in H.
  pose proof (proj1 (forallb_forall device_ok pinouts) pinouts_all_ok _ H) as Hok.
  unfold device_ok in Hok.
  destruct (lookup key_eqb (pkg, id) packages) as [pins|] eqn:Hp;
    [|discriminate].
  destruct (make_spi 0 pins std (toolchain Top)) as [io|] eqn:Hm;
    [|discriminate].
  exists pins, io. split; [reflexivity|]. split; [exact Hm|].
  apply Bool.eqb_prop. exact Hok.
Qed.

(** X17.  The two tables fit together.  No chip and no (package, id) key is
    listed twice; every chip of [pinouts] names a package entry of
    [packages] with at least four pins, so [make_spi] accepts it; and the
    resulting resource has a [clk] subsignal exactly for the Spartan
    classes, the ones whose SPI clock is an ordinary pin. *)
Theorem pinouts_resolve_in_packages :
  distinct String.eqb (map fst pinouts) = true /\
  distinct key_eqb (map fst packages) = true /\
  (forall device pkg id std Top,
     lookup String.eqb device pinouts = Some (pkg, id, std, Top) ->
     exists pins io,
       lookup key_eqb (pkg, id) packages = Some pins /\
       (4 <= List.length pins)%nat /\
       make_spi 0 pins std (toolchain Top) = Some io /\
       has_subsignal "clk" io
       = match Top with
         | Spartan3 | Spartan3A | Spartan6 => true
         | Series7 | Ultrascale => false
         end).
Proof.
  split; [vm_compute; reflexivity|]. split; [vm_compute; reflexivity|].
  intros device pkg id std Top H.
  destruct (device_resolves device pkg id std Top H) as (pins & io & Hp & Hm & Hc).
  exists pins, io. split; [exact Hp|]. split; [|split; [exact Hm|]].
  - destruct (le_lt_dec 4 (List.length pins)) as [Hle|Hlt]; [exact Hle|].
    apply (make_spi_aux_none 0 pins std (toolchain Top)) in Hlt.
    congruence.
  - rewrite Hc. destruct Top; reflexivity.
Qed.

Lemma pinouts_resolve_in_packages_witness :
  exists pins io,
    lookup key_eqb ("cpg236-1", IdNum 1) packages = Some pins /\
    (4 <= List.length pins)%nat /\
    make_spi 0 pins "LVCMOS25" (toolchain Series7) = Some io /\
    has_subsignal "clk" io = false.
Proof.
  destruct pinouts_resolve_in_packages as (_ & _ & H).
  apply (H "xc7a35t"). reflexivity.
Defined.

(** X18.  Error handling of [XilinxBscanSpi.make].  A chip that is not in
    [pinouts] raises [KeyError] whatever [errors] is: the lookups are
    outside the [try].  For a listed chip the build is called with the
    platform named [<chip>-<package>], the name [bscan_spi_<chip>] and the
    directory [build_<chip>]; if it succeeds nothing is printed or raised;
    if it fails, the message naming the chip is printed in both cases and
    the exception escapes only when [errors] is true. *)
Theorem make_error_handling
    (build : build_call -> option string) (device : string) :
  (lookup String.eqb device pinouts = None ->
   forall errors,
     make build device errors = {| printed := []; raised := Some KeyError |}) /\
  (forall pkg id std Top,
     lookup String.eqb device pinouts = Some (pkg, id, std, Top) ->
     exists io,
       let call :=
         {| b_platform := {| p_device := device ++ "-" ++ pkg;
                             p_ios := [io];
                             p_toolchain := toolchain Top |};
            b_top := Top;
            b_name := "bscan_spi_" ++ device;
            b_dir := "build_" ++ device |} in
       (build call = None ->
        forall errors,
          make build device errors = {| printed := []; raised := None |}) /\
       (forall e, build call = Some e ->
          let msg := "ERROR: xilinx_bscan_spi build failed for "
                       ++ device ++ ": " ++ e in
          make build device false
          = {| printed := [msg]; raised := None |} /\
          make build device true
          = {| printed := [msg]; raised := Some (BuildError e) |})).
Proof.
  split.
  - intros H errors. unfold make. rewrite H. reflexivity.
  - intros pkg id std Top H.
    destruct (device_resolves device pkg id std Top H)
      as (pins & io & Hp & Hm & _).
    exists io. cbv zeta. split.
    + intros Hb errors. unfold make. rewrite H, Hp, Hm, Hb. reflexivity.
    + intros e Hb. split; unfold make; rewrite H, Hp, Hm, Hb; reflexivity.
Qed.

Lemma make_error_handling_witness :
  make (fun _ => Some "bitgen failed") "xc9999" false
  = {| printed := []; raised := Some KeyError |} /\
  raised (make (fun _ => Some "bitgen failed") "xc3s100e" false) = None.
Proof.
  destruct (make_error_handling (fun _ => Some "bitgen failed") "xc9999")
    as [Hunknown _].
  destruct (make_error_handling (fun _ => Some "bitgen failed") "xc3s100e")
    as [_ Hknown].
  split.
  - apply Hunknown. reflexivity.
  - destruct (Hknown "cp132" (IdNum 1) "LVCMOS33" Spartan3 eq_refl)
      as (io & _ & Hfail).
    destruct (Hfail "bitgen failed" eq_refl) as [H _].
    rewrite H. reflexivity.
Defined.
